(** * video_filename_parser: filename decoder and directory reorganizer

    A shallow embedding of [src/lib/video_filename_parser.py].

    Python strings are modelled by [string]; a character is one of the 256
    values of [ascii], read as the code point of the same number (the
    Latin-1 range of [str]).  Dictionaries with string keys are [gmap]s; the
    [Gender] dictionary, which the code iterates in insertion order, is kept
    as an association list. *)

From Stdlib Require Import Ascii.
From stdpp Require Import base option list strings gmap.

Local Open Scope stdpp_scope.

(** ** Python string methods *)

Module Str.

(** [sep in s] for a one-character [sep]. *)
Fixpoint contains (sep : ascii) (s : string) : bool :=
match s with
| EmptyString => false
| String a r => if Ascii.eqb a sep then true else contains sep r
end.

(** [s.split(sep)] for a one-character [sep]: never the empty list. *)
Fixpoint split (sep : ascii) (s : string) : list string :=
match s with
| EmptyString => [EmptyString]
| String a r =>
    if Ascii.eqb a sep then EmptyString :: split sep r
    else match split sep r with
         | h :: t => String a h :: t
         | [] => [String a EmptyString]
         end
end.

(** [s.rsplit(sep, 1)] for a one-character [sep]: the text before the last
  [sep] and the text after it, or [s] alone when [sep] does not occur. *)
Fixpoint rsplit1 (sep : ascii) (s : string) : list string :=
match s with
| EmptyString => [EmptyString]
| String a r =>
    match rsplit1 sep r with
    | [h; t] => [String a h; t]
    | _ => if Ascii.eqb a sep then [EmptyString; r] else [s]
    end
end.

(** [str.isspace] on one character of the Latin-1 range. *)
Definition isspace (c : ascii) : bool :=
let n := nat_of_ascii c in
((9 <=? n) && (n <=? 13)) || ((28 <=? n) && (n <=? 32))
|| (n =? 133) || (n =? 160).

Fixpoint lstrip (s : string) : string :=
match s with
| EmptyString => EmptyString
| String a r => if isspace a then lstrip r else s
end.

Fixpoint rstrip (s : string) : string :=
match s with
| EmptyString => EmptyString
| String a r =>
    match rstrip r with
    | EmptyString => if isspace a then EmptyString else String a EmptyString
    | r' => String a r'
    end
end.

(** [s.strip()] *)
Definition strip (s : string) : string := rstrip (lstrip s).

(** [str.lower] on one character of the Latin-1 range: the ASCII capitals
  and the capitals U+00C0..U+00DE other than the multiplication sign. *)
Definition lower_char (c : ascii) : ascii :=
let n := nat_of_ascii c in
if ((65 <=? n) && (n <=? 90))
   || ((192 <=? n) && (n <=? 222) && negb (n =? 215))
then ascii_of_nat (n + 32) else c.

(** [s.lower()] *)
Fixpoint lower (s : string) : string :=
match s with
| EmptyString => EmptyString
| String a r => String (lower_char a) (lower r)
end.

(** [s.startswith(p)] *)
Fixpoint startswith (p s : string) : bool :=
match p, s with
| EmptyString, _ => true
| String a p', String b s' => Ascii.eqb a b && startswith p' s'
| String _ _, EmptyString => false
end.

(** [s.endswith(p)] *)
Fixpoint endswith (p s : string) : bool :=
match s with
| EmptyString => String.eqb p EmptyString
| String _ r => String.eqb p s || endswith p r
end.

(** [s.endswith(ps)] for a tuple [ps] of suffixes. *)
Definition endswith_any (ps : list string) (s : string) : bool :=
existsb (fun p => endswith p s) ps.

End Str.

(** ** The lookup tables *)

Definition EMOTION_DICT : gmap string string :=
  list_to_map
    [("A", "Anger"); ("D", "Disgust"); ("F", "Fear"); ("H", "Happy");
     ("Ha", "Happy"); ("N", "Neutral"); ("S", "Sad")].

Definition LANGUAGE_DICT : gmap string string :=
  list_to_map [("EN", "English"); ("HI", "Hindi")].

Definition SPEAKER_NAME_DICT : gmap string string :=
  list_to_map
    [("A1", "Speaker One"); ("A2", "Speaker Two"); ("A3", "Speaker Three");
     ("A4", "Speaker Four"); ("A5", "Speaker Five"); ("A6", "Speaker Six");
     ("A7", "Speaker Seven"); ("A8", "Speaker Eight"); ("A9", "Speaker Nine");
     ("A10", "Speaker Ten"); ("A11", "Speaker Eleven");
     ("A12", "Speaker Twelve"); ("A13", "Speaker Thirteen");
     ("A14", "Speaker Fourteen"); ("A15", "Speaker Fifteen");
     ("A16", "Speaker Sixteen"); ("A17", "Speaker Seventeen");
     ("A18", "Speaker Eighteen"); ("A19", "Speaker Nineteen");
     ("A20", "Speaker Twenty"); ("A21", "Speaker Twenty One");
     ("A22", "Speaker Twenty Two"); ("A23", "Speaker Twenty Three");
     ("A24", "Speaker Twenty Four"); ("A25", "Speaker Twenty Five")].

Definition SENTENCE_DICT : gmap string string :=
  list_to_map
    [("S1", "Can't you hear my voice?");
     ("S2", "I tried to resolve this issue from my end.");
     ("S3", "My electricity bill is not yet updated.");
     ("S4", "How much time is needed to update my account details?");
     ("S5", "I no longer want to use your services.");
     ("S6", "No, I haven't received any updates.");
     ("S7", "No, that's fine.");
     ("S8", "Okay, but make it quick.");
     ("S9", "I am busy. You can call me later.");
     ("S10", "Yes, who is calling?");
     ("S11", "I hope it will work fine now");
     ("S12", "Okay, what do I have to do?");
     ("S13", "Fine, send your executive at 10:00 a.m. tomorrow.");
     ("S14", "I got the wrong electricity bill.");
     ("S15", "Okay, I have all these things ready.");
     ("S16", "I have been waiting long to connect.");
     ("S17", "Can you fix it fast?");
     ("S18", "Well, can you help me?")].

(** [Gender]: group label to the list of its speaker codes, in the order the
    dictionary literal gives them, which is the order [Gender.items()] yields. *)
Definition Gender : list (string * list string) :=
  [("M", ["A1"; "A2"; "A5"; "A8"; "A9"; "A11"; "A12"; "A14"; "A15"; "A16";
          "A20"; "A22"; "A23"]);
   ("F", ["A3"; "A4"; "A6"; "A7"; "A10"; "A13"; "A17"; "A18"; "A19"; "A21";
          "A24"; "A25"])].

(** ** Exceptions and logging *)

(** The exception classes the module meets, each standing for its
    subclasses too. *)
Inductive exn : Type :=
| ValueError (msg : string)
| KeyError (msg : string)
| IndexError (msg : string)
| OSError (msg : string)
| RuntimeError (msg : string).

(** The result of running a statement or a call: it completes with a value
    or an exception is propagating. *)
Inductive outcome (A : Type) : Type :=
| Return (a : A)
| Raise (e : exn).
Arguments Return {A} a.
Arguments Raise {A} e.

#[global] Instance outcome_ret : MRet outcome := fun A a => Return a.
#[global] Instance outcome_bind : MBind outcome := fun A B k m =>
  match m with
  | Return a => k a
  | Raise e => Raise e
  end.

Inductive log_level : Type := WARNING | INFO | ERROR.

Inductive log_arg : Type :=
| ArgStr (s : string)
| ArgExn (e : exn).

(** One call of a [logger] method: the level, the format string and the
    arguments, as they are handed to the logger. *)
Record log_record : Type := LogRecord {
  log_lvl : log_level;
  log_fmt : string;
  log_args : list log_arg
}.

(** ** The decoder *)

(** The dictionary [parse_video_filename] returns: always the same nine keys. *)
Record details : Type := Details {
  speaker : string;
  speaker_name : string;
  gender : string;
  language : string;
  language_full : string;
  emotion : string;
  emotion_full : string;
  detail : string;
  sentence : string
}.

(** [d.get(k, dflt)] *)
Definition dict_get (d : gmap string string) (k dflt : string) : string :=
  default dflt (d !! k).

(** [x in xs] on a list of strings. *)
Definition list_contains (x : string) (xs : list string) : bool :=
  bool_decide (x ∈ xs).

(** [xs[i]] for an index that is not negative. *)
Definition list_index (xs : list string) (i : nat) : outcome string :=
  match xs !! i with
  | Some x => Return x
  | None => Raise (IndexError "list index out of range")
  end.

(** [a, b, c, d = xs] *)
Definition unpack4 (xs : list string)
  : outcome (string * string * string * string) :=
  match xs with
  | [a; b; c; d] => Return (a, b, c, d)
  | _ :: _ :: _ :: _ :: _ :: _ =>
      Raise (ValueError "too many values to unpack (expected 4)")
  | _ => Raise (ValueError "not enough values to unpack (expected 4)")
  end.

(** The loop of lines 135-139, [gender] being the variable it assigns:
    [for g, speakers in Gender.items(): if speaker in speakers: gender = g; break]. *)
Fixpoint gender_loop (items : list (string * list string))
    (speaker gender : string) : string :=
  match items with
  | [] => gender
  | (g, speakers) :: rest =>
      if list_contains speaker speakers then g
      else gender_loop rest speaker gender
  end.

Definition unknown_details : details :=
  {| speaker := "unknown"; speaker_name := "Unknown Speaker";
     gender := "Unknown";
     language := "unknown"; language_full := "Unknown Language";
     emotion := "unknown"; emotion_full := "Unknown Emotion";
     detail := "unknown"; sentence := "Unknown sentence" |}.

(** Line 108: [filename.rsplit(".", 1)[0] if "." in filename else filename]. *)
Definition base_name (filename : string) : outcome string :=
  if Str.contains "." filename
  then list_index (Str.rsplit1 "." filename) 0
  else Return filename.

(** [parse_video_filename]: the dictionary returned and the log records
    emitted on the way, or the exception raised. *)
Definition parse_video_filename (filename : string)
  : outcome (details * list log_record) :=
  base ← base_name filename;
  let parts := Str.split "_" base in
  if negb (length parts =? 4) then
    Return
      (unknown_details,
       [LogRecord WARNING
          "Filename structure unexpected: %s, expected 4 parts separated by underscores"
          [ArgStr filename]])
  else
    '(speaker, language, emotion_code, detail) ← unpack4 (Str.strip <$> parts);
    let speaker_name := dict_get SPEAKER_NAME_DICT speaker speaker in
    let language_full := dict_get LANGUAGE_DICT language language in
    let emotion_full := dict_get EMOTION_DICT emotion_code emotion_code in
    let sentence := dict_get SENTENCE_DICT detail detail in
    let gender := gender_loop Gender speaker "Unknown" in
    Return
      ({| speaker := speaker; speaker_name := speaker_name; gender := gender;
          language := language; language_full := language_full;
          emotion := emotion_code; emotion_full := emotion_full;
          detail := detail; sentence := sentence |}, []).

(** The loop of [get_gender], which returns from inside the loop; the
    [raise] follows it. *)
Fixpoint get_gender_loop (items : list (string * list string))
    (speaker : string) : outcome string :=
  match items with
  | [] => Raise (ValueError ("Unknown gender for speaker: " +:+ speaker))
  | (gender, speakers) :: rest =>
      if list_contains speaker speakers then Return gender
      else get_gender_loop rest speaker
  end.

(** [get_gender]: the strict lookup. *)
Definition get_gender (speaker : string) : outcome string :=
  get_gender_loop Gender speaker.

(** ** The reorganizer *)

(** [os.path.join(a, *p)] of [posixpath]. *)
Definition join_step (path b : string) : string :=
  if Str.startswith "/" b then b
  else if String.eqb path EmptyString || Str.endswith "/" path then path +:+ b
  else path +:+ "/" +:+ b.

Definition os_path_join (a : string) (p : list string) : string :=
  foldl join_step a p.

(** The classes the handler of [convert_structure] names:
    [except (ValueError, KeyError)]. *)
Definition caught (e : exn) : bool :=
  match e with
  | ValueError _ | KeyError _ => true
  | IndexError _ | OSError _ | RuntimeError _ => false
  end.

(** The file system, and the three library calls that touch it.  A call
    either completes or raises; in both cases it leaves a file system.
    [os_walk] gives what iterating [os.walk(src_dir)] does, read off the
    file system the walk starts in: the [(root, dirs, files)] triples it
    yields and the exception, if any, that ends the iteration (a
    [ValueError] for a NUL in [src_dir], a [RecursionError], which is a
    [RuntimeError], for a tree too deep); [os_makedirs] is
    [os.makedirs(path, exist_ok=True)]. *)
Class FileSystem (World : Type) : Type := {
  os_walk : string -> World
            -> list (string * list string * list string) * option exn;
  os_makedirs : string -> World -> outcome unit * World;
  shutil_copy2 : string -> string -> World -> outcome unit * World
}.

Section Reorganizer.

Context `{FileSystem World}.

Record state : Type := State {
  world : World;
  logs : list log_record
}.

(** Statements: state passing with a propagating exception. *)
Definition py (A : Type) : Type := state -> outcome A * state.

#[global] Instance py_ret : MRet py := fun A a st => (Return a, st).
#[global] Instance py_bind : MBind py := fun A B k m st =>
  match m st with
  | (Return a, st') => k a st'
  | (Raise e, st') => (Raise e, st')
  end.

Definition raise {A} (e : exn) : py A := fun st => (Raise e, st).

(** [try: m except <classes> as e: handler e], [handles] being the test
    of the except clause. *)
Definition try_except {A} (m : py A) (handles : exn -> bool)
    (handler : exn -> py A) : py A := fun st =>
  match m st with
  | (Return a, st') => (Return a, st')
  | (Raise e, st') => if handles e then handler e st' else (Raise e, st')
  end.

Definition emit (rs : list log_record) : py unit := fun st =>
  (Return tt, {| world := world st; logs := logs st ++ rs |}).

Definition logger (lvl : log_level) (fmt : string) (args : list log_arg)
  : py unit := emit [LogRecord lvl fmt args].

Definition call (f : World -> outcome unit * World) : py unit := fun st =>
  let '(r, w) := f (world st) in (r, {| world := w; logs := logs st |}).

(** A call that does not touch the state. *)
Definition lift {A} (r : outcome A) : py A := fun st => (r, st).

(** [for x in xs: acc = body acc x] *)
Fixpoint for_each {A B} (xs : list B) (body : A -> B -> py A) (acc : A)
  : py A :=
  match xs with
  | [] => mret acc
  | x :: rest => acc' ← body acc x; for_each rest body acc'
  end.

Definition is_video (file : string) : bool :=
  Str.endswith_any [".mp4"; ".avi"; ".mov"] (Str.lower file).

Definition target_dir_of (dst_dir : string) (d : details) : string :=
  os_path_join dst_dir [language d; gender d; emotion d; detail d].

(** The statements of the [try] block, up to the log line. *)
Definition copy_video (dst_dir src_file file : string) : py unit :=
  '(d, records) ← lift (parse_video_filename file);
  emit records;;
  let target_dir := target_dir_of dst_dir d in
  call (os_makedirs target_dir);;
  let target_file := os_path_join target_dir [file] in
  call (shutil_copy2 src_file target_file);;
  logger INFO "Copied %s to %s" [ArgStr src_file; ArgStr target_file].

(** The body of the loop over [files]; [counts] is
    [(success_count, error_count)]. *)
Definition file_body (dst_dir root : string) (counts : nat * nat)
    (file : string) : py (nat * nat) :=
  let '(success_count, error_count) := counts in
  if negb (is_video file) then mret counts
  else
    let src_file := os_path_join root [file] in
    try_except
      (copy_video dst_dir src_file file;;
       mret (S success_count, error_count))
      caught
      (fun e =>
         logger ERROR "Error processing %s: %s" [ArgStr file; ArgExn e];;
         mret (success_count, S error_count)).

(** The body of the loop over the walk: the loop over [files]. *)
Definition dir_body (dst_dir : string) (counts : nat * nat)
    (triple : string * list string * list string) : py (nat * nat) :=
  let '(root, _, files) := triple in
  for_each files (file_body dst_dir root) counts.

(** [convert_structure]: the loop runs over the triples the walk yields;
    an exception of the walk itself is raised in the [for] statement,
    outside the [try]. *)
Definition convert_structure (src_dir dst_dir : string) : py (nat * nat) :=
  fun st =>
    let '(triples, ending) := os_walk src_dir (world st) in
    (counts ← for_each triples (dir_body dst_dir) (0, 0);
     match ending with
     | None => mret counts
     | Some e => raise e
     end) st.

End Reorganizer.

(** ** Case-insensitive extensions, in the words of the specification *)

(** [c] is [e] or the ASCII capital of [e]. *)
Definition same_letter (c e : ascii) : bool :=
  let n := nat_of_ascii c in
  Ascii.eqb c e
  || ((65 <=? n) && (n <=? 90) && Ascii.eqb (ascii_of_nat (n + 32)) e).

(** [s] is [ext] up to the case of its letters. *)
Fixpoint matches_nocase (ext s : string) : bool :=
  match ext, s with
  | EmptyString, EmptyString => true
  | String e ext', String c s' => same_letter c e && matches_nocase ext' s'
  | _, _ => false
  end.

(** [file] ends, case-insensitively, with [ext]. *)
Definition has_extension (ext file : string) : Prop :=
  exists stem tail, file = stem +:+ tail /\ matches_nocase ext tail = true.

(** ** Two concrete file systems *)

Module DemoFS.

(** A file system that records the directories made and the copies done.
    A path with an embedded NUL is refused with [ValueError], as the [os]
    functions do, by the walk too; when [read_only] is set, making a
    directory fails with an [OSError]. *)
Record fs : Type := Fs {
  dirs : list string;
  copies : list (string * string)
}.

Definition empty : fs := {| dirs := []; copies := [] |}.

Definition walk (tree : list (string * list string * list string))
    (src_dir : string) (w : fs)
  : list (string * list string * list string) * option exn :=
  if Str.contains "000" src_dir
  then ([], Some (ValueError "embedded null byte"))
  else (tree, None).

Definition makedirs (read_only : bool) (path : string) (w : fs)
  : outcome unit * fs :=
  if Str.contains "000" path then (Raise (ValueError "embedded null byte"), w)
  else if read_only then (Raise (OSError "Read-only file system"), w)
  else (Return tt, {| dirs := dirs w ++ [path]; copies := copies w |}).

Definition copy2 (src dst : string) (w : fs) : outcome unit * fs :=
  if Str.contains "000" src || Str.contains "000" dst
  then (Raise (ValueError "embedded null byte"), w)
  else (Return tt, {| dirs := dirs w; copies := copies w ++ [(src, dst)] |}).

Definition tree : list (string * list string * list string) :=
  [("src", ["videos"], []);
   ("src/videos", [], ["A1_EN_H_S1.mp4"; "notes.txt"; "A3_HI_S_S2.MOV"])].

Definition start : state := {| world := empty; logs := [] |}.

Definition writable : FileSystem fs :=
  {| os_walk := walk tree; os_makedirs := makedirs false;
     shutil_copy2 := copy2 |}.

Definition read_only : FileSystem fs :=
  {| os_walk := walk tree; os_makedirs := makedirs true;
     shutil_copy2 := copy2 |}.

End DemoFS.

(** ** Notions the properties are stated with *)

(** A code that splits and trims to itself: no underscore, no dot, no
    white space at its ends. *)
Definition clean (k : string) : Prop :=
  Str.contains "_" k = false /\ Str.contains "." k = false /\ Str.strip k = k.

(** No code is listed under two labels. *)
Definition groups_disjoint (items : list (string * list string)) : Prop :=
  forall spk g1 s1 g2 s2,
    (g1, s1) ∈ items -> (g2, s2) ∈ items -> spk ∈ s1 -> spk ∈ s2 -> g1 = g2.

(** A character that only itself and its ASCII capital lower to. *)
Definition plain (e : ascii) : Prop :=
  forall c, Ascii.eqb (Str.lower_char c) e = same_letter c e.

Fixpoint all_plain (ext : string) : Prop :=
  match ext with
  | EmptyString => True
  | String e ext' => plain e /\ all_plain ext'
  end.

(** What a file adds to the two counters together. *)
Definition video_weight (file : string) : nat :=
  if is_video file then 1 else 0.

(** [file] carries one of the three extensions, whatever the case of its
    letters. *)
Definition qualifies (file : string) : Prop :=
  exists ext, ext ∈ [".mp4"; ".avi"; ".mov"] /\ has_extension ext file.

(** The number of qualifying files a walk yields. *)
Definition count_videos (walk : list (string * list string * list string))
  : nat :=
  sum_list ((fun '(_, _, files) => sum_list (video_weight <$> files)) <$> walk).

Section Handler.

Context {World : Type}.

(** The state a handled failure leaves: the error line is appended. *)
Definition with_error (file : string) (e : exn) (st : @state World)
  : @state World :=
  {| world := world st;
     logs := logs st ++ [LogRecord ERROR "Error processing %s: %s"
                           [ArgStr file; ArgExn e]] |}.

(** What the handler does with an exception the [try] block raised. *)
Definition handle (sc ec : nat) (file : string) (e : exn) (st : @state World)
  : outcome (nat * nat) * @state World :=
  if caught e then (Return (sc, S ec), with_error file e st)
  else (Raise e, st).

End Handler.

(** A destination root with an embedded NUL: every directory creation is
    refused with a [ValueError]. *)
Definition nul_dst : string := String "000" "dst".

(** The number of occurrences of [c] in [s]. *)
Fixpoint count_char (c : ascii) (s : string) : nat :=
  match s with
  | EmptyString => 0
  | String a r => (if Ascii.eqb a c then 1 else 0) + count_char c r
  end.

(** A path component that takes a directory level of its own: not empty,
    no slash at either end. *)
Definition segment (s : string) : Prop :=
  s <> EmptyString /\ Str.startswith "/" s = false
  /\ Str.endswith "/" s = false.

(** A path that a further component is appended to with a slash. *)
Definition open_path (path : string) : Prop :=
  path <> EmptyString /\ Str.endswith "/" path = false.

#[global] Instance log_level_eq_dec : EqDecision log_level.
Proof. solve_decision. Defined.

(** The number of records of level [lvl] in a log. *)
Definition count_level (lvl : log_level) (rs : list log_record) : nat :=
  length (filter (fun r => log_lvl r = lvl) rs).

(** A file system on which directory creation and copy always succeed. *)
Definition quiet_fs : FileSystem DemoFS.fs :=
  {| os_walk := DemoFS.walk DemoFS.tree;
     os_makedirs := fun path w =>
       (Return tt,
        {| DemoFS.dirs := DemoFS.dirs w ++ [path];
           DemoFS.copies := DemoFS.copies w |});
     shutil_copy2 := fun src dst w =>
       (Return tt,
        {| DemoFS.dirs := DemoFS.dirs w;
           DemoFS.copies := DemoFS.copies w ++ [(src, dst)] |}) |}.

(** * Properties *)

Example parse_ok :
  parse_video_filename "A1_EN_H_S1.mp4"
  = Return
      ({| speaker := "A1"; speaker_name := "Speaker One"; gender := "M";
          language := "EN"; language_full := "English";
          emotion := "H"; emotion_full := "Happy";
          detail := "S1"; sentence := "Can't you hear my voice?" |}, []).
Proof. vm_compute. reflexivity. Qed.

Example get_gender_A3 : get_gender "A3" = Return "F".
Proof. vm_compute. reflexivity. Qed.

Example demo_run :
  convert_structure (H := DemoFS.writable) "src" "dst" DemoFS.start
  = (Return (2, 0),
     {| world :=
          {| DemoFS.dirs := ["dst/EN/M/H/S1"; "dst/HI/F/S/S2"];
             DemoFS.copies :=
               [("src/videos/A1_EN_H_S1.mp4", "dst/EN/M/H/S1/A1_EN_H_S1.mp4");
                ("src/videos/A3_HI_S_S2.MOV", "dst/HI/F/S/S2/A3_HI_S_S2.MOV")] |};
        logs :=
          [LogRecord INFO "Copied %s to %s"
             [ArgStr "src/videos/A1_EN_H_S1.mp4";
              ArgStr "dst/EN/M/H/S1/A1_EN_H_S1.mp4"];
           LogRecord INFO "Copied %s to %s"
             [ArgStr "src/videos/A3_HI_S_S2.MOV";
              ArgStr "dst/HI/F/S/S2/A3_HI_S_S2.MOV"]] |}).
Proof. vm_compute. reflexivity. Qed.

(** Only the text after the last dot is taken off. *)
Example parse_two_dots :
  parse_video_filename "A1_EN_H_S1.tar.gz"
  = Return
      ({| speaker := "A1"; speaker_name := "Speaker One"; gender := "M";
          language := "EN"; language_full := "English";
          emotion := "H"; emotion_full := "Happy";
          detail := "S1.tar"; sentence := "S1.tar" |}, []).
Proof. vm_compute. reflexivity. Qed.

(** A malformed name is copied under the fallback path and counted as a
    success. *)
Example malformed_run :
  file_body (H := DemoFS.writable) "dst" "src" (0, 0) "A1_EN.mp4" DemoFS.start
  = (Return (1, 0),
     {| world :=
          {| DemoFS.dirs := ["dst/unknown/Unknown/unknown/unknown"];
             DemoFS.copies :=
               [("src/A1_EN.mp4",
                 "dst/unknown/Unknown/unknown/unknown/A1_EN.mp4")] |};
        logs :=
          [LogRecord WARNING
             "Filename structure unexpected: %s, expected 4 parts separated by underscores"
             [ArgStr "A1_EN.mp4"];
           LogRecord INFO "Copied %s to %s"
             [ArgStr "src/A1_EN.mp4";
              ArgStr "dst/unknown/Unknown/unknown/unknown/A1_EN.mp4"]] |}).
Proof. vm_compute. reflexivity. Qed.

(** ** Facts about the string methods *)

Section StringFacts.

Lemma append_nil (t : string) : EmptyString +:+ t = t.
Proof. reflexivity. Qed.

Lemma append_cons a (s t : string) : String a s +:+ t = String a (s +:+ t).
Proof. reflexivity. Qed.

Lemma append_assoc (a b c : string) : (a +:+ b) +:+ c = a +:+ b +:+ c.
Proof.
  induction a as [|x a IH]; rewrite ?append_nil, ?append_cons; [done|].
  by rewrite IH.
Qed.

Lemma split_nonempty sep s : Str.split sep s <> [].
Proof.
  destruct s as [|a r]; simpl; [done|].
  destruct (Ascii.eqb a sep); [done|].
  by destruct (Str.split sep r).
Qed.

(** A text without the separator is a single field. *)
Lemma split_nosep sep s :
  Str.contains sep s = false -> Str.split sep s = [s].
Proof.
  induction s as [|a r IH]; simpl; [done|].
  destruct (Ascii.eqb a sep); [done|].
  intros H. by rewrite (IH H).
Qed.

(** The first field ends at the first separator. *)
Lemma split_app sep s r :
  Str.contains sep s = false ->
  Str.split sep (s +:+ String sep r) = s :: Str.split sep r.
Proof.
  induction s as [|a s IH]; rewrite ?append_nil, ?append_cons; simpl.
  - by rewrite Ascii.eqb_refl.
  - destruct (Ascii.eqb a sep); [done|].
    intros H. by rewrite (IH H).
Qed.

Lemma rsplit1_length sep s :
  length (Str.rsplit1 sep s) = if Str.contains sep s then 2 else 1.
Proof.
  induction s as [|a r IH]; simpl; [done|].
  destruct (Str.contains sep r).
  - destruct (Str.rsplit1 sep r) as [|h [|t [|]]]; try done.
    by destruct (Ascii.eqb a sep).
  - destruct (Str.rsplit1 sep r) as [|h [|t [|]]]; try done.
    by destruct (Ascii.eqb a sep).
Qed.

(** Index 0 of the result of [rsplit] exists. *)
Lemma rsplit1_nonempty sep s : 0 < length (Str.rsplit1 sep s).
Proof. rewrite rsplit1_length. destruct (Str.contains sep s); lia. Qed.

Lemma rsplit1_nosep sep s :
  Str.contains sep s = false -> Str.rsplit1 sep s = [s].
Proof.
  intros H. pose proof (rsplit1_length sep s) as Hl. rewrite H in Hl.
  destruct s as [|a r]; [done|]. simpl in *.
  destruct (Ascii.eqb a sep); [done|].
  destruct (Str.rsplit1 sep r) as [|h [|t [|]]]; try done.
Qed.

(** The split is at the last separator. *)
Lemma rsplit1_app sep b ext :
  Str.contains sep ext = false ->
  Str.rsplit1 sep (b +:+ String sep ext) = [b; ext].
Proof.
  intros H. induction b as [|a b IH]; rewrite ?append_nil, ?append_cons; simpl.
  - rewrite (rsplit1_nosep _ _ H). by rewrite Ascii.eqb_refl.
  - by rewrite IH.
Qed.

Lemma contains_app sep b r : Str.contains sep (b +:+ String sep r) = true.
Proof.
  induction b as [|a b IH]; rewrite ?append_nil, ?append_cons; simpl.
  - by rewrite Ascii.eqb_refl.
  - by destruct (Ascii.eqb a sep).
Qed.

(** Stripping one extension without a dot gives back the stem. *)
Lemma base_name_ext b ext :
  Str.contains "." ext = false ->
  base_name (b +:+ String "." ext) = Return b.
Proof.
  intros H. unfold base_name.
  by rewrite contains_app, (rsplit1_app _ _ _ H).
Qed.

(** The index taken on line 108 is in range: no [IndexError]. *)
Lemma base_name_total filename : exists base, base_name filename = Return base.
Proof.
  unfold base_name. destruct (Str.contains "." filename); [|by eexists].
  pose proof (rsplit1_nonempty "." filename) as Hlen. unfold list_index.
  destruct (Str.rsplit1 "." filename) as [|h t]; [simpl in Hlen; lia|].
  by exists h.
Qed.

End StringFacts.

(** ** Facts about the tables *)

Lemma list_to_map_keys (P : string -> Prop) (l : list (string * string)) k v :
  Forall (fun kv => P kv.1) l ->
  (list_to_map l : gmap string string) !! k = Some v -> P k.
Proof.
  intros HF Hk. apply elem_of_list_to_map_2 in Hk.
  rewrite Forall_forall in HF. exact (HF _ Hk).
Qed.

Ltac table_keys :=
  intros ? ?; apply list_to_map_keys;
  repeat (apply Forall_cons; split; [by vm_compute|]); apply Forall_nil_2.

Lemma SPEAKER_NAME_DICT_clean k v : SPEAKER_NAME_DICT !! k = Some v -> clean k.
Proof. revert k v. table_keys. Qed.

Lemma LANGUAGE_DICT_clean k v : LANGUAGE_DICT !! k = Some v -> clean k.
Proof. revert k v. table_keys. Qed.

Lemma EMOTION_DICT_clean k v : EMOTION_DICT !! k = Some v -> clean k.
Proof. revert k v. table_keys. Qed.

Lemma SENTENCE_DICT_clean k v : SENTENCE_DICT !! k = Some v -> clean k.
Proof. revert k v. table_keys. Qed.

(** ** The decoder *)

(** With four fields, the record is built from the trimmed fields and
    nothing is logged. *)
Lemma parse_four filename base p1 p2 p3 p4 :
  base_name filename = Return base ->
  Str.split "_" base = [p1; p2; p3; p4] ->
  parse_video_filename filename
  = Return
      (let speaker := Str.strip p1 in
       let language := Str.strip p2 in
       let emotion_code := Str.strip p3 in
       let detail := Str.strip p4 in
       {| speaker := speaker;
          speaker_name := dict_get SPEAKER_NAME_DICT speaker speaker;
          gender := gender_loop Gender speaker "Unknown";
          language := language;
          language_full := dict_get LANGUAGE_DICT language language;
          emotion := emotion_code;
          emotion_full := dict_get EMOTION_DICT emotion_code emotion_code;
          detail := detail;
          sentence := dict_get SENTENCE_DICT detail detail |}, []).
Proof.
  intros Hb Hs. unfold parse_video_filename. rewrite Hb.
  unfold mbind at 1, outcome_bind. by rewrite Hs.
Qed.

(** With another number of fields, the fallback record and one warning. *)
Lemma parse_fallback filename base :
  base_name filename = Return base ->
  length (Str.split "_" base) <> 4 ->
  parse_video_filename filename
  = Return
      (unknown_details,
       [LogRecord WARNING
          "Filename structure unexpected: %s, expected 4 parts separated by underscores"
          [ArgStr filename]]).
Proof.
  intros Hb Hlen. unfold parse_video_filename. rewrite Hb.
  unfold mbind, outcome_bind.
  destruct (Nat.eqb_spec (length (Str.split "_" base)) 4) as [Heq|Hne]; done.
Qed.

(** The decoder raises on no file name. *)
Lemma parse_total filename :
  exists d records, parse_video_filename filename = Return (d, records).
Proof.
  destruct (base_name_total filename) as [base Hb].
  destruct (decide (length (Str.split "_" base) = 4)) as [Hlen|Hlen].
  - destruct (Str.split "_" base) as [|p1 [|p2 [|p3 [|p4 [|p5 l]]]]] eqn:Hs;
      try done.
    rewrite (parse_four _ _ _ _ _ _ Hb Hs). by eexists _, _.
  - rewrite (parse_fallback _ _ Hb Hlen). by eexists _, _.
Qed.

(** C2: a file name whose base does not split on the underscore into
    exactly four fields decodes to the fallback record: the four codes are
    "unknown", the gender is "Unknown" and the display fields are "Unknown
    Speaker", "Unknown Language", "Unknown Emotion" and "Unknown sentence";
    one warning is logged.  On no file name does the decoder raise. *)
Theorem C2_fallback_record (filename : string) :
  (exists d records, parse_video_filename filename = Return (d, records))
  /\ (forall base,
        base_name filename = Return base ->
        length (Str.split "_" base) <> 4 ->
        parse_video_filename filename
        = Return
            ({| speaker := "unknown"; speaker_name := "Unknown Speaker";
                gender := "Unknown";
                language := "unknown"; language_full := "Unknown Language";
                emotion := "unknown"; emotion_full := "Unknown Emotion";
                detail := "unknown"; sentence := "Unknown sentence" |},
             [LogRecord WARNING
                "Filename structure unexpected: %s, expected 4 parts separated by underscores"
                [ArgStr filename]])).
Proof.
  split; [apply parse_total|].
  intros base Hb Hlen. apply (parse_fallback _ _ Hb Hlen).
Qed.

Lemma C2_fallback_record_witness :
  exists records,
    parse_video_filename "A1_EN_H_S1_extra.mp4" = Return (unknown_details, records).
Proof.
  destruct (C2_fallback_record "A1_EN_H_S1_extra.mp4") as [_ Hfb].
  eexists. apply (Hfb "A1_EN_H_S1_extra"); by vm_compute.
Defined.

(** C3: for a file name "S_L_E_D.ext" whose four codes are keys of the
    speaker, language, emotion and sentence tables, and whose extension is
    the text after the last dot, the raw fields of the decoded record are S,
    L, E and D and the display fields are the values the tables give them. *)
Theorem C3_recognized_codes (S L E D ext sn lf ef st : string) :
  SPEAKER_NAME_DICT !! S = Some sn ->
  LANGUAGE_DICT !! L = Some lf ->
  EMOTION_DICT !! E = Some ef ->
  SENTENCE_DICT !! D = Some st ->
  Str.contains "." ext = false ->
  parse_video_filename
    (S +:+ "_" +:+ L +:+ "_" +:+ E +:+ "_" +:+ D +:+ "." +:+ ext)
  = Return
      ({| speaker := S; speaker_name := sn;
          gender := gender_loop Gender S "Unknown";
          language := L; language_full := lf;
          emotion := E; emotion_full := ef;
          detail := D; sentence := st |}, []).
Proof.
  intros HS HL HE HD Hext.
  destruct (SPEAKER_NAME_DICT_clean _ _ HS) as (HS1 & HS2 & HS3).
  destruct (LANGUAGE_DICT_clean _ _ HL) as (HL1 & HL2 & HL3).
  destruct (EMOTION_DICT_clean _ _ HE) as (HE1 & HE2 & HE3).
  destruct (SENTENCE_DICT_clean _ _ HD) as (HD1 & HD2 & HD3).
  set (base := S +:+ "_" +:+ L +:+ "_" +:+ E +:+ "_" +:+ D).
  assert (Hname : S +:+ "_" +:+ L +:+ "_" +:+ E +:+ "_" +:+ D +:+ "." +:+ ext
                  = base +:+ String "." ext).
  { unfold base. by rewrite !append_assoc. }
  assert (Hsplit : Str.split "_" base = [S; L; E; D]).
  { unfold base. rewrite !append_cons, !append_nil.
    rewrite (split_app _ _ _ HS1), (split_app _ _ _ HL1), (split_app _ _ _ HE1).
    by rewrite (split_nosep _ _ HD1). }
  rewrite Hname, (parse_four _ _ _ _ _ _ (base_name_ext _ _ Hext) Hsplit).
  cbv zeta. rewrite HS3, HL3, HE3, HD3. unfold dict_get.
  by rewrite HS, HL, HE, HD.
Qed.

Lemma C3_recognized_codes_witness :
  parse_video_filename "A3_HI_S_S2.mov"
  = Return
      ({| speaker := "A3"; speaker_name := "Speaker Three"; gender := "F";
          language := "HI"; language_full := "Hindi";
          emotion := "S"; emotion_full := "Sad";
          detail := "S2";
          sentence := "I tried to resolve this issue from my end." |}, []).
Proof.
  apply (C3_recognized_codes "A3" "HI" "S" "S2" "mov"); by vm_compute.
Defined.
(** ** The two membership scans *)

Section Scans.

Variable items : list (string * list string).

(** The lenient loop is the strict one with the raise replaced by the
    value the variable had before the loop. *)
Lemma gender_loop_strict spk dflt :
  gender_loop items spk dflt
  = match get_gender_loop items spk with Return g => g | Raise _ => dflt end.
Proof.
  induction items as [|[g speakers] rest IH]; simpl; [done|].
  by destruct (list_contains spk speakers).
Qed.

Lemma get_gender_loop_found spk g :
  get_gender_loop items spk = Return g ->
  exists speakers, (g, speakers) ∈ items /\ spk ∈ speakers.
Proof.
  induction items as [|[g' speakers] rest IH]; simpl; [done|].
  unfold list_contains. case_bool_decide as Hin.
  - intros [= <-]. exists speakers. split; [left | done].
  - intros H. destruct (IH H) as (s & Hs & Hspk).
    exists s. split; [by right | done].
Qed.

Lemma get_gender_loop_raises spk e :
  get_gender_loop items spk = Raise e ->
  e = ValueError ("Unknown gender for speaker: " +:+ spk)
  /\ forall g speakers, (g, speakers) ∈ items -> spk ∉ speakers.
Proof.
  induction items as [|[g' speakers] rest IH]; simpl.
  - intros [= <-]. split; [done|]. intros g s Hs. by apply elem_of_nil in Hs.
  - unfold list_contains. case_bool_decide as Hin; [done|].
    intros H. destruct (IH H) as [-> Hrest]. split; [done|].
    intros g s [[= -> ->]|Hs]%elem_of_cons; [done | by eapply Hrest].
Qed.

Lemma get_gender_loop_absent spk :
  (forall g speakers, (g, speakers) ∈ items -> spk ∉ speakers) ->
  get_gender_loop items spk
  = Raise (ValueError ("Unknown gender for speaker: " +:+ spk)).
Proof.
  intros Habs. destruct (get_gender_loop items spk) as [g|e] eqn:H.
  - destruct (get_gender_loop_found _ _ H) as (s & Hs & Hspk).
    by destruct (Habs _ _ Hs).
  - by destruct (get_gender_loop_raises _ _ H) as [-> _].
Qed.

Lemma get_gender_loop_member spk g speakers :
  groups_disjoint items ->
  (g, speakers) ∈ items -> spk ∈ speakers ->
  get_gender_loop items spk = Return g.
Proof.
  intros Hdis Hs Hspk. destruct (get_gender_loop items spk) as [g'|e] eqn:H.
  - destruct (get_gender_loop_found _ _ H) as (s' & Hs' & Hspk').
    by rewrite (Hdis _ _ _ _ _ Hs' Hs Hspk' Hspk).
  - destruct (get_gender_loop_raises _ _ H) as [_ Habs].
    by destruct (Habs _ _ Hs).
Qed.

End Scans.

(** The scan does not depend on the order of the groups when they are
    disjoint. *)
Lemma get_gender_loop_perm items items' spk :
  groups_disjoint items -> items' ≡ₚ items ->
  get_gender_loop items' spk = get_gender_loop items spk.
Proof.
  intros Hdis Hperm.
  assert (Hdis' : groups_disjoint items').
  { intros x g1 s1 g2 s2 H1 H2. rewrite Hperm in H1, H2. by apply Hdis. }
  destruct (get_gender_loop items spk) as [g|e] eqn:H.
  - destruct (get_gender_loop_found _ _ _ H) as (s & Hs & Hspk).
    rewrite <- Hperm in Hs. by eapply get_gender_loop_member.
  - destruct (get_gender_loop_raises _ _ _ H) as [-> Habs].
    apply get_gender_loop_absent. intros g s Hs. rewrite Hperm in Hs.
    by eapply Habs.
Qed.

(** The two lists of the table share no code. *)
Lemma Gender_lists_disjoint sM sF :
  Gender = [("M", sM); ("F", sF)] -> forall x, x ∈ sM -> x ∉ sF.
Proof.
  intros [= <- <-] x HM.
  repeat (apply elem_of_cons in HM as [->|HM];
          [apply (bool_decide_unpack _); by vm_compute|]).
  by apply elem_of_nil in HM.
Qed.

Lemma Gender_disjoint : groups_disjoint Gender.
Proof.
  intros spk g1 s1 g2 s2 H1 H2 Hs1 Hs2.
  pose proof (Gender_lists_disjoint _ _ eq_refl spk) as HMF.
  unfold Gender in H1, H2.
  apply elem_of_cons in H1 as [[= -> ->]|H1];
    [|apply elem_of_cons in H1 as [[= -> ->]|H1]; [|by apply elem_of_nil in H1]];
  (apply elem_of_cons in H2 as [[= -> ->]|H2];
    [|apply elem_of_cons in H2 as [[= -> ->]|H2]; [|by apply elem_of_nil in H2]]);
  try done; by destruct (HMF ltac:(eassumption)).
Qed.

(** The labels are "M" and "F"; none is the sentinel. *)
Lemma get_gender_label spk g : get_gender spk = Return g -> g = "M" \/ g = "F".
Proof.
  intros H. apply get_gender_loop_found in H as (s & Hs & _).
  unfold Gender in Hs.
  apply elem_of_cons in Hs as [[= -> _]|Hs]; [by left|].
  apply elem_of_cons in Hs as [[= -> _]|Hs]; [by right|].
  by apply elem_of_nil in Hs.
Qed.

(** Membership and absence in the concrete lists, by evaluation. *)
Ltac listed := apply (bool_decide_unpack _); by vm_compute.

Ltac in_no_group :=
  let g := fresh "g" in
  let speakers := fresh "speakers" in
  let Hg := fresh "Hg" in
  intros g speakers Hg; unfold Gender in Hg;
  repeat (apply elem_of_cons in Hg as [[= -> ->]|Hg]; [listed|]);
  by apply elem_of_nil in Hg.

(** C4: [get_gender] returns the label of the group that lists the code,
    for every code listed in a group, and raises the "unknown speaker"
    [ValueError] for every code that no group lists; a label is returned
    only for a listed code, so there is no fallback value. *)
Theorem C4_get_gender_strict (spk : string) :
  (forall g speakers,
     (g, speakers) ∈ Gender -> spk ∈ speakers -> get_gender spk = Return g)
  /\ ((forall g speakers, (g, speakers) ∈ Gender -> spk ∉ speakers) ->
      get_gender spk
      = Raise (ValueError ("Unknown gender for speaker: " +:+ spk)))
  /\ (forall g, get_gender spk = Return g ->
      exists speakers, (g, speakers) ∈ Gender /\ spk ∈ speakers).
Proof.
  split; [|split].
  - intros g speakers. apply get_gender_loop_member, Gender_disjoint.
  - apply get_gender_loop_absent.
  - intros g. apply get_gender_loop_found.
Qed.

Lemma C4_get_gender_strict_witness :
  get_gender "A3" = Return "F"
  /\ get_gender "Z1" = Raise (ValueError "Unknown gender for speaker: Z1").
Proof.
  split.
  - destruct (C4_get_gender_strict "A3") as (Hin & _ & _).
    apply (Hin "F" ["A3"; "A4"; "A6"; "A7"; "A10"; "A13"; "A17"; "A18"; "A19";
                    "A21"; "A24"; "A25"]); listed.
  - destruct (C4_get_gender_strict "Z1") as (_ & Hout & _).
    apply Hout. in_no_group.
Defined.

(** C5: for a file name with four fields the decoder returns a record
    whose gender is the label of the group that lists the speaker code, and
    the sentinel "Unknown" when no group lists it: it raises in neither
    case. *)
Theorem C5_gender_lenient (filename base p1 p2 p3 p4 : string) :
  base_name filename = Return base ->
  Str.split "_" base = [p1; p2; p3; p4] ->
  exists d,
    parse_video_filename filename = Return (d, [])
    /\ speaker d = Str.strip p1
    /\ (forall g speakers,
          (g, speakers) ∈ Gender -> speaker d ∈ speakers -> gender d = g)
    /\ ((forall g speakers, (g, speakers) ∈ Gender -> speaker d ∉ speakers) ->
        gender d = "Unknown").
Proof.
  intros Hb Hs. eexists. split; [apply (parse_four _ _ _ _ _ _ Hb Hs)|].
  cbn [speaker gender]. rewrite gender_loop_strict.
  split; [done|]. split.
  - intros g speakers Hg Hspk.
    by rewrite (get_gender_loop_member _ _ _ _ Gender_disjoint Hg Hspk).
  - intros Habs. by rewrite (get_gender_loop_absent _ _ Habs).
Qed.

Lemma C5_gender_lenient_witness :
  (exists d, parse_video_filename "A3_HI_S_S2.mov" = Return (d, [])
             /\ gender d = "F")
  /\ (exists d, parse_video_filename "Z99_HI_S_S2.mov" = Return (d, [])
                /\ gender d = "Unknown").
Proof.
  split.
  - destruct (C5_gender_lenient "A3_HI_S_S2.mov" "A3_HI_S_S2" "A3" "HI" "S" "S2")
      as (d & Hd & Hspk & Hin & _); [by vm_compute | by vm_compute |].
    exists d. split; [done|].
    apply (Hin "F" ["A3"; "A4"; "A6"; "A7"; "A10"; "A13"; "A17"; "A18"; "A19";
                    "A21"; "A24"; "A25"]); [listed|].
    rewrite Hspk. listed.
  - destruct (C5_gender_lenient "Z99_HI_S_S2.mov" "Z99_HI_S_S2" "Z99" "HI" "S"
                "S2") as (d & Hd & Hspk & _ & Hout); [by vm_compute | by vm_compute |].
    exists d. split; [done|]. apply Hout. rewrite Hspk. in_no_group.
Defined.

(** C6: for a file name with four fields, each display field is the value
    its table gives the trimmed code, and the code itself, verbatim, when
    the table has no such key; the four fields resolve independently. *)
Theorem C6_passthrough (filename base p1 p2 p3 p4 : string) :
  base_name filename = Return base ->
  Str.split "_" base = [p1; p2; p3; p4] ->
  exists d,
    parse_video_filename filename = Return (d, [])
    /\ (speaker d = Str.strip p1 /\ language d = Str.strip p2
        /\ emotion d = Str.strip p3 /\ detail d = Str.strip p4)
    /\ (SPEAKER_NAME_DICT !! speaker d = None -> speaker_name d = speaker d)
    /\ (LANGUAGE_DICT !! language d = None -> language_full d = language d)
    /\ (EMOTION_DICT !! emotion d = None -> emotion_full d = emotion d)
    /\ (SENTENCE_DICT !! detail d = None -> sentence d = detail d)
    /\ (forall v, SPEAKER_NAME_DICT !! speaker d = Some v -> speaker_name d = v)
    /\ (forall v, LANGUAGE_DICT !! language d = Some v -> language_full d = v)
    /\ (forall v, EMOTION_DICT !! emotion d = Some v -> emotion_full d = v)
    /\ (forall v, SENTENCE_DICT !! detail d = Some v -> sentence d = v).
Proof.
  intros Hb Hs. eexists. split; [apply (parse_four _ _ _ _ _ _ Hb Hs)|].
  cbn [speaker language emotion detail speaker_name language_full
       emotion_full sentence].
  unfold dict_get.
  repeat split; (intros ? Hk || intros Hk); by rewrite Hk.
Qed.

Lemma C6_passthrough_witness :
  exists d,
    parse_video_filename "Z99_EN_H_S1.mp4" = Return (d, [])
    /\ speaker_name d = "Z99" /\ language_full d = "English"
    /\ emotion_full d = "Happy" /\ sentence d = "Can't you hear my voice?".
Proof.
  destruct (C6_passthrough "Z99_EN_H_S1.mp4" "Z99_EN_H_S1" "Z99" "EN" "H" "S1")
    as (d & Hd & (Hc1 & Hc2 & Hc3 & Hc4) & Hs & _ & _ & _ & _ & Hl & He & Hsn);
    [by vm_compute | by vm_compute |].
  exists d. split; [done|].
  split; [rewrite Hs; rewrite Hc1; by vm_compute|].
  split; [apply Hl; rewrite Hc2; by vm_compute|].
  split; [apply He; rewrite Hc3; by vm_compute|].
  apply Hsn; rewrite Hc4; by vm_compute.
Defined.

(** C9: a speaker code is listed under at most one label: the lists of "M"
    and of "F" share no code, so the two membership scans find the same
    group in whatever order the groups are visited. *)
Theorem C9_groups_disjoint :
  (exists sM sF,
     Gender = [("M", sM); ("F", sF)] /\ (forall x, x ∈ sM -> x ∉ sF))
  /\ (forall spk g1 s1 g2 s2,
        (g1, s1) ∈ Gender -> (g2, s2) ∈ Gender ->
        spk ∈ s1 -> spk ∈ s2 -> g1 = g2)
  /\ (forall items spk,
        items ≡ₚ Gender ->
        get_gender_loop items spk = get_gender_loop Gender spk
        /\ gender_loop items spk "Unknown" = gender_loop Gender spk "Unknown").
Proof.
  split; [|split].
  - eexists _, _. split; [reflexivity|]. by apply Gender_lists_disjoint.
  - apply Gender_disjoint.
  - intros items spk Hperm.
    pose proof (get_gender_loop_perm _ _ spk Gender_disjoint Hperm) as Heq.
    split; [done|]. by rewrite !gender_loop_strict, Heq.
Qed.

Lemma C9_groups_disjoint_witness :
  get_gender_loop (reverse Gender) "A3" = get_gender_loop Gender "A3"
  /\ gender_loop (reverse Gender) "A3" "Unknown"
     = gender_loop Gender "A3" "Unknown".
Proof.
  destruct C9_groups_disjoint as (_ & _ & Hperm).
  apply (Hperm (reverse Gender) "A3"). apply reverse_Permutation.
Defined.

(** C10: for a file name with four fields, the gender of the decoded
    record is what [get_gender] returns for the decoded speaker code
    whenever a group lists that code, and it is "Unknown" exactly when
    [get_gender] raises for that code. *)
Theorem C10_lenient_agrees_with_strict (filename base p1 p2 p3 p4 : string) :
  base_name filename = Return base ->
  Str.split "_" base = [p1; p2; p3; p4] ->
  exists d,
    parse_video_filename filename = Return (d, [])
    /\ speaker d = Str.strip p1
    /\ (forall g speakers,
          (g, speakers) ∈ Gender -> speaker d ∈ speakers ->
          get_gender (speaker d) = Return (gender d))
    /\ (gender d = "Unknown" <-> exists e, get_gender (speaker d) = Raise e).
Proof.
  intros Hb Hs. eexists. split; [apply (parse_four _ _ _ _ _ _ Hb Hs)|].
  cbn [speaker gender]. rewrite gender_loop_strict. unfold get_gender.
  split; [done|]. split.
  - intros g speakers Hg Hspk.
    by rewrite (get_gender_loop_member _ _ _ _ Gender_disjoint Hg Hspk).
  - destruct (get_gender_loop Gender (Str.strip p1)) as [g|e] eqn:Hg.
    + split.
      * intros ->. by destruct (get_gender_label _ _ Hg).
      * by intros [e [=]].
    + split; [by exists e | done].
Qed.

Lemma C10_lenient_agrees_with_strict_witness :
  exists d,
    parse_video_filename "A3_HI_S_S2.mov" = Return (d, [])
    /\ get_gender (speaker d) = Return (gender d).
Proof.
  destruct (C10_lenient_agrees_with_strict "A3_HI_S_S2.mov" "A3_HI_S_S2"
              "A3" "HI" "S" "S2") as (d & Hd & Hspk & Hin & _);
    [by vm_compute | by vm_compute |].
  exists d. split; [done|].
  apply (Hin "F" ["A3"; "A4"; "A6"; "A7"; "A10"; "A13"; "A17"; "A18"; "A19";
                  "A21"; "A24"; "A25"]); [listed|].
  rewrite Hspk. listed.
Defined.
(** ** Paths and extensions *)

Lemma os_path_join_snoc a p b :
  os_path_join (os_path_join a p) [b] = os_path_join a (p ++ [b]).
Proof. unfold os_path_join. by rewrite foldl_app. Qed.

(** The last component is kept as it is at the end of the joined path. *)
Lemma join_step_suffix path b : exists prefix, join_step path b = prefix +:+ b.
Proof.
  unfold join_step. destruct (Str.startswith "/" b).
  - by exists EmptyString.
  - destruct (String.eqb path EmptyString || Str.endswith "/" path).
    + by exists path.
    + exists (path +:+ "/"). by rewrite append_assoc.
Qed.

Lemma endswith_spec p s :
  Str.endswith p s = true <-> exists stem, s = stem +:+ p.
Proof.
  induction s as [|a r IH]; simpl.
  - rewrite String.eqb_eq. split.
    + intros ->. by exists EmptyString.
    + intros [[|b stem] H]; [done|]. by rewrite append_cons in H.
  - rewrite orb_true_iff, String.eqb_eq, IH. split.
    + intros [->|[stem ->]]; [by exists EmptyString|].
      by exists (String a stem).
    + intros [[|b stem] H]; [by left|]. right.
      rewrite append_cons in H. injection H as _ ->. by exists stem.
Qed.

Lemma lower_app s t : Str.lower (s +:+ t) = Str.lower s +:+ Str.lower t.
Proof.
  induction s as [|a s IH]; rewrite ?append_nil, ?append_cons; simpl; [done|].
  by rewrite IH, append_cons.
Qed.

(** [lower] works character by character, so a suffix of the lowered name
    is the lowered suffix of the name. *)
Lemma lower_split s a b :
  Str.lower s = a +:+ b ->
  exists s1 s2, s = s1 +:+ s2 /\ Str.lower s1 = a /\ Str.lower s2 = b.
Proof.
  revert s. induction a as [|x a IH]; intros s; rewrite ?append_nil, ?append_cons.
  - intros H. by exists EmptyString, s.
  - destruct s as [|c s]; simpl; [done|]. intros [= Hc H].
    destruct (IH _ H) as (s1 & s2 & -> & <- & <-).
    exists (String c s1), s2. simpl. by rewrite Hc.
Qed.

Ltac all_chars := intros [[] [] [] [] [] [] [] []]; vm_compute; reflexivity.

Lemma plain_dot : plain ".". Proof. all_chars. Qed.
Lemma plain_m : plain "m". Proof. all_chars. Qed.
Lemma plain_p : plain "p". Proof. all_chars. Qed.
Lemma plain_4 : plain "4". Proof. all_chars. Qed.
Lemma plain_a : plain "a". Proof. all_chars. Qed.
Lemma plain_v : plain "v". Proof. all_chars. Qed.
Lemma plain_i : plain "i". Proof. all_chars. Qed.
Lemma plain_o : plain "o". Proof. all_chars. Qed.

Lemma lower_matches ext tail :
  all_plain ext -> Str.lower tail = ext <-> matches_nocase ext tail = true.
Proof.
  revert tail. induction ext as [|e ext IH]; intros [|c tail]; simpl; try done.
  intros [He Hext]. rewrite andb_true_iff, <- (IH _ Hext), <- He.
  rewrite Ascii.eqb_eq. split; [by intros [= -> ->] | by intros [-> ->]].
Qed.

Lemma endswith_lower ext file :
  all_plain ext ->
  Str.endswith ext (Str.lower file) = true <-> has_extension ext file.
Proof.
  intros Hext. rewrite endswith_spec. unfold has_extension. split.
  - intros [stem H]. destruct (lower_split _ _ _ H) as (s1 & s2 & -> & _ & H2).
    exists s1, s2. by rewrite <- lower_matches.
  - intros (s1 & s2 & -> & H). rewrite <- lower_matches in H by done.
    exists (Str.lower s1). by rewrite lower_app, H.
Qed.

(** ** The reorganizer *)

Section ReorganizerFacts.

Context `{FileSystem World}.

(** The three ways the body of the loop ends for a qualifying file. *)
Lemma file_body_video dst_dir root sc ec file st :
  is_video file = true ->
  file_body dst_dir root (sc, ec) file st
  = match copy_video dst_dir (os_path_join root [file]) file st with
    | (Return _, st1) => (Return (S sc, ec), st1)
    | (Raise e, st1) => handle sc ec file e st1
    end.
Proof.
  intros Hv. unfold file_body, handle. rewrite Hv. simpl.
  unfold try_except, mbind, py_bind, mret, py_ret.
  destruct (copy_video _ _ _ st) as [[[]|e] st1]; [done|].
  by destruct (caught e).
Qed.

Lemma file_body_skip dst_dir root counts file st :
  is_video file = false ->
  file_body dst_dir root counts file st = (Return counts, st).
Proof. intros Hv. unfold file_body. destruct counts. by rewrite Hv. Qed.

(** The file system changes through the two calls only, and the copy
    goes to one path. *)
Lemma copy_video_calls dst_dir src_file file st d records :
  parse_video_filename file = Return (d, records) ->
  let target_dir :=
    os_path_join dst_dir [language d; gender d; emotion d; detail d] in
  let target_file :=
    os_path_join dst_dir [language d; gender d; emotion d; detail d; file] in
  let st0 := {| world := world st; logs := logs st ++ records |} in
  copy_video dst_dir src_file file st
  = match os_makedirs target_dir (world st) with
    | (Raise e, w1) => (Raise e, {| world := w1; logs := logs st0 |})
    | (Return _, w1) =>
        match shutil_copy2 src_file target_file w1 with
        | (Raise e, w2) => (Raise e, {| world := w2; logs := logs st0 |})
        | (Return _, w2) =>
            (Return tt,
             {| world := w2;
                logs := logs st0 ++ [LogRecord INFO "Copied %s to %s"
                                       [ArgStr src_file; ArgStr target_file]] |})
        end
    end.
Proof.
  intros Hd target_dir target_file st0. subst target_dir target_file st0.
  unfold copy_video, mbind, py_bind, lift. rewrite Hd.
  unfold target_dir_of, emit, call, logger, emit. cbn [world logs].
  rewrite os_path_join_snoc. cbn [app].
  destruct (os_makedirs _ (world st)) as [[[]|e] w1]; [|done].
  cbn [world logs]. by destruct (shutil_copy2 _ _ w1) as [[[]|e] w2].
Qed.

Lemma is_video_qualifies file : is_video file = true <-> qualifies file.
Proof.
  unfold is_video, Str.endswith_any, qualifies. simpl.
  rewrite !orb_true_iff.
  rewrite !endswith_lower
    by (simpl; eauto 10 using plain_dot, plain_m, plain_p, plain_4, plain_a,
          plain_v, plain_i, plain_o).
  split.
  - intros [?|[?|[?|?]]]; [exists ".mp4" | exists ".avi" | exists ".mov" | done];
      (split; [set_solver | done]).
  - intros (ext & Hin & Hext).
    repeat (apply elem_of_cons in Hin as [->|Hin]; [by eauto|]).
    by apply elem_of_nil in Hin.
Qed.

(** A loop whose body always completes, completes; [m] measures the
    accumulator and [w] what an element adds to it. *)
Lemma for_each_total {A B} (m : A -> nat) (w : B -> nat)
    (body : A -> B -> @py World A) (xs : list B) :
  (forall acc x st, exists acc' st',
      body acc x st = (Return acc', st') /\ m acc' = m acc + w x) ->
  forall acc st, exists acc' st',
    for_each xs body acc st = (Return acc', st')
    /\ m acc' = m acc + sum_list (w <$> xs).
Proof.
  intros Hbody.
  induction xs as [|x rest IH]; intros acc st;
    rewrite ?fmap_nil, ?fmap_cons; simpl.
  - exists acc, st. split; [done | lia].
  - destruct (Hbody acc x st) as (acc1 & st1 & Hx & Hm).
    destruct (IH acc1 st1) as (acc2 & st2 & Hrest & Hm2).
    exists acc2, st2. unfold mbind, py_bind. rewrite Hx. split; [done | lia].
Qed.

(** C7: for a qualifying file the directory made is the join of the
    destination root with the language code, the gender label, the emotion
    code and the detail code of the decoded record, and the copy goes to the
    join of these with the file name, which ends the path unchanged; the
    display names take no part. *)
Theorem C7_destination_path (dst_dir root file : string) (sc ec : nat)
    (st : state) (d : details) (records : list log_record) :
  is_video file = true ->
  parse_video_filename file = Return (d, records) ->
  let target_dir :=
    os_path_join dst_dir [language d; gender d; emotion d; detail d] in
  let target_file :=
    os_path_join dst_dir [language d; gender d; emotion d; detail d; file] in
  let st0 := {| world := world st; logs := logs st ++ records |} in
  (exists prefix, target_file = prefix +:+ file)
  /\ file_body dst_dir root (sc, ec) file st
     = match os_makedirs target_dir (world st) with
       | (Raise e, w1) =>
           handle sc ec file e {| world := w1; logs := logs st0 |}
       | (Return _, w1) =>
           match shutil_copy2 (os_path_join root [file]) target_file w1 with
           | (Raise e, w2) =>
               handle sc ec file e {| world := w2; logs := logs st0 |}
           | (Return _, w2) =>
               (Return (S sc, ec),
                {| world := w2;
                   logs := logs st0
                           ++ [LogRecord INFO "Copied %s to %s"
                                 [ArgStr (os_path_join root [file]);
                                  ArgStr target_file]] |})
           end
       end.
Proof.
  intros Hv Hd target_dir target_file st0. split.
  - unfold target_file, os_path_join. simpl. apply join_step_suffix.
  - rewrite (file_body_video _ _ _ _ _ _ Hv), (copy_video_calls _ _ _ _ _ _ Hd).
    fold target_dir. fold target_file. fold st0.
    destruct (os_makedirs target_dir (world st)) as [[[]|e] w1]; [|done].
    by destruct (shutil_copy2 _ target_file w1) as [[[]|e] w2].
Qed.

(** C8: the files processed are those whose name ends, whatever the case
    of the letters, with ".mp4", ".avi" or ".mov".  Any other file leaves
    the counters, the file system and the log as they were; a qualifying
    file goes through the [try] block, and one of the counters grows by one
    unless the exception propagates. *)
Theorem C8_extension_filter (dst_dir root file : string) (sc ec : nat)
    (st : state) :
  (is_video file = true <-> qualifies file)
  /\ (~ qualifies file ->
      file_body dst_dir root (sc, ec) file st = (Return (sc, ec), st))
  /\ (qualifies file ->
      exists o st1,
        copy_video dst_dir (os_path_join root [file]) file st = (o, st1)
        /\ file_body dst_dir root (sc, ec) file st
           = match o with
             | Return _ => (Return (S sc, ec), st1)
             | Raise e => handle sc ec file e st1
             end).
Proof.
  split; [apply is_video_qualifies|]. split.
  - intros Hq. apply file_body_skip.
    destruct (is_video file) eqn:Hv; [|done].
    by apply is_video_qualifies in Hv.
  - intros Hq%is_video_qualifies.
    rewrite (file_body_video _ _ _ _ _ _ Hq).
    destruct (copy_video _ _ _ st) as [o st1]. exists o, st1.
    split; [done|]. by destruct o.
Qed.

(** The run of [convert_structure]: the loop over what the walk yields,
    then the exception of the walk, if it has one. *)
Lemma convert_structure_run src_dir dst_dir st :
  convert_structure src_dir dst_dir st
  = match for_each (os_walk src_dir (world st)).1 (dir_body dst_dir) (0, 0) st
    with
    | (Return counts, st') =>
        (match (os_walk src_dir (world st)).2 with
         | None => Return counts
         | Some e => Raise e
         end, st')
    | (Raise e, st') => (Raise e, st')
    end.
Proof.
  unfold convert_structure. destruct (os_walk src_dir (world st)) as [ts en].
  cbn [fst snd]. unfold mbind, py_bind.
  destruct (for_each ts (dir_body dst_dir) (0, 0) st) as [[counts|e] st'];
    [|done].
  by destruct en.
Qed.

Lemma for_each_app {A B} (body : A -> B -> @py World A) xs ys acc st :
  for_each (xs ++ ys) body acc st
  = match for_each xs body acc st with
    | (Return acc', st') => for_each ys body acc' st'
    | (Raise e, st') => (Raise e, st')
    end.
Proof.
  revert acc st. induction xs as [|x xs IH]; intros acc st; [done|].
  cbn [app for_each]. unfold mbind, py_bind.
  destruct (body acc x st) as [[acc1|e] st1]; [apply IH | done].
Qed.

(** C1, as the code has it: a [ValueError] or [KeyError] raised while a
    file is processed is handled at the file: the error counter grows by
    one, the success counter is kept and the loop goes on with the next
    file.  When the file system calls raise nothing but these two classes,
    no file ends the walk: the loop runs over every triple the walk yields.
    An exception of another class raised while a file is processed is not
    handled: it leaves [convert_structure] at that file.  What the strict
    gender lookup raises is of a handled class. *)
Theorem C1_handled_failures_isolated :
  (forall dst_dir root file rest sc ec st e st1,
      is_video file = true ->
      copy_video dst_dir (os_path_join root [file]) file st = (Raise e, st1) ->
      (caught e = true ->
       for_each (file :: rest) (file_body dst_dir root) (sc, ec) st
       = for_each rest (file_body dst_dir root) (sc, S ec)
           (with_error file e st1))
      /\ (caught e = false ->
          for_each (file :: rest) (file_body dst_dir root) (sc, ec) st
          = (Raise e, st1)))
  /\ ((forall path w e w1,
         os_makedirs path w = (Raise e, w1) -> caught e = true) ->
      (forall src dst w e w1,
         shutil_copy2 src dst w = (Raise e, w1) -> caught e = true) ->
      forall src_dir dst_dir st, exists counts st',
        for_each (os_walk src_dir (world st)).1 (dir_body dst_dir) (0, 0) st
        = (Return counts, st')
        /\ convert_structure src_dir dst_dir st
           = (match (os_walk src_dir (world st)).2 with
              | None => Return counts
              | Some e => Raise e
              end, st'))
  /\ (forall src_dir dst_dir st pre root dirs before file after post ending
             counts0 st0 counts1 st1 e st2,
        os_walk src_dir (world st)
        = (pre ++ (root, dirs, before ++ file :: after) :: post, ending) ->
        for_each pre (dir_body dst_dir) (0, 0) st = (Return counts0, st0) ->
        for_each before (file_body dst_dir root) counts0 st0
        = (Return counts1, st1) ->
        is_video file = true ->
        copy_video dst_dir (os_path_join root [file]) file st1
        = (Raise e, st2) ->
        caught e = false ->
        convert_structure src_dir dst_dir st = (Raise e, st2))
  /\ (forall spk e, get_gender spk = Raise e -> caught e = true).
Proof.
  split; [|split; [|split]].
  - intros dst_dir root file rest sc ec st e st1 Hv Hcopy.
    cbn [for_each]. unfold mbind, py_bind.
    rewrite (file_body_video _ _ _ _ _ _ Hv), Hcopy. unfold handle.
    split; by intros ->.
  - intros Hmk Hcp src_dir dst_dir st.
    assert (Hfile : forall root (acc : nat * nat) file st0, exists acc' st',
               file_body dst_dir root acc file st0 = (Return acc', st')
               /\ acc'.1 + acc'.2 = acc.1 + acc.2 + video_weight file).
    { intros root [sc ec] file st0. unfold video_weight.
      destruct (is_video file) eqn:Hv.
      - destruct (parse_total file) as (d & records & Hd).
        rewrite (file_body_video _ _ _ _ _ _ Hv),
          (copy_video_calls _ _ _ _ _ _ Hd).
        unfold handle.
        destruct (os_makedirs _ (world st0)) as [[[]|e] w1] eqn:Hm.
        + destruct (shutil_copy2 _ _ w1) as [[[]|e] w2] eqn:Hc.
          * eexists _, _. split; [done|]. simpl. lia.
          * rewrite (Hcp _ _ _ _ _ Hc).
            eexists _, _. split; [done|]. simpl. lia.
        + rewrite (Hmk _ _ _ _ Hm).
          eexists _, _. split; [done|]. simpl. lia.
      - rewrite (file_body_skip _ _ _ _ _ Hv).
        eexists _, _. split; [done|]. simpl. lia. }
    rewrite convert_structure_run.
    destruct (for_each_total (fun acc : nat * nat => acc.1 + acc.2)
                (fun '(_, _, files) => sum_list (video_weight <$> files))
                (dir_body dst_dir)
                (os_walk src_dir (world st)).1) with (acc := (0, 0)) (st := st)
      as (counts & st' & Hrun & _).
    { intros acc [[root dirs] files] st0.
      apply (for_each_total (fun acc : nat * nat => acc.1 + acc.2)
               video_weight). apply Hfile. }
    exists counts, st'. by rewrite Hrun.
  - intros src_dir dst_dir st pre root dirs before file after post ending
      counts0 st0 [sc ec] st1 e st2 Hwalk Hpre Hbefore Hv Hcopy He.
    rewrite convert_structure_run, Hwalk. cbn [fst snd].
    rewrite for_each_app, Hpre. cbn [for_each dir_body].
    unfold mbind at 1, py_bind at 1. rewrite for_each_app, Hbefore.
    cbn [for_each]. unfold mbind at 1, py_bind at 1.
    by rewrite (file_body_video _ _ _ _ _ _ Hv), Hcopy; unfold handle; rewrite He.
  - intros spk e Hraise.
    by destruct (get_gender_loop_raises _ _ _ Hraise) as [-> _].
Qed.

End ReorganizerFacts.

Lemma C7_destination_path_witness :
  file_body (H := DemoFS.writable) "dst" "src/videos" (0, 0) "A1_EN_H_S1.mp4"
    DemoFS.start
  = (Return (1, 0),
     {| world :=
          {| DemoFS.dirs := ["dst/EN/M/H/S1"];
             DemoFS.copies :=
               [("src/videos/A1_EN_H_S1.mp4",
                 "dst/EN/M/H/S1/A1_EN_H_S1.mp4")] |};
        logs :=
          [LogRecord INFO "Copied %s to %s"
             [ArgStr "src/videos/A1_EN_H_S1.mp4";
              ArgStr "dst/EN/M/H/S1/A1_EN_H_S1.mp4"]] |}).
Proof.
  destruct (C7_destination_path (H := DemoFS.writable) "dst" "src/videos"
              "A1_EN_H_S1.mp4" 0 0 DemoFS.start
              {| speaker := "A1"; speaker_name := "Speaker One"; gender := "M";
                 language := "EN"; language_full := "English";
                 emotion := "H"; emotion_full := "Happy";
                 detail := "S1"; sentence := "Can't you hear my voice?" |} [])
    as [_ Heq]; [by vm_compute | by vm_compute |].
  rewrite Heq. by vm_compute.
Defined.

Lemma C8_extension_filter_witness :
  file_body (H := DemoFS.writable) "dst" "src/videos" (1, 0) "notes.txt"
    DemoFS.start
  = (Return (1, 0), DemoFS.start).
Proof.
  destruct (C8_extension_filter (H := DemoFS.writable) "dst" "src/videos"
              "notes.txt" 1 0 DemoFS.start) as (Hiff & Hskip & _).
  apply Hskip. intros Hq. apply Hiff in Hq. by vm_compute in Hq.
Defined.

Lemma C1_handled_failures_isolated_witness :
  exists counts st',
    convert_structure (H := DemoFS.writable) "src" nul_dst DemoFS.start
    = (Return counts, st').
Proof.
  destruct (C1_handled_failures_isolated (H := DemoFS.writable))
    as (_ & Hall & _).
  destruct (Hall : _ -> _ -> forall src_dir dst_dir st, _)
    with (src_dir := "src") (dst_dir := nul_dst) (st := DemoFS.start)
    as (counts & st' & _ & Hrun).
  - intros path w e w1. simpl. unfold DemoFS.makedirs.
    destruct (Str.contains _ path); by intros [= <- _].
  - intros src dst w e w1. simpl. unfold DemoFS.copy2.
    destruct (Str.contains _ src || Str.contains _ dst); by intros [= <- _].
  - exists counts, st'. exact Hrun.
Defined.

Example nul_dst_run :
  fst (convert_structure (H := DemoFS.writable) "src" nul_dst DemoFS.start)
  = Return (0, 2).
Proof. by vm_compute. Qed.

(** C1, as stated, fails: on a read-only destination the first directory
    creation raises an [OSError], which the handler does not name; the
    exception leaves [convert_structure], no counter is returned and the
    second video of the tree is never reached. *)
Lemma C1_io_error_aborts_walk :
  convert_structure (H := DemoFS.read_only) "src" "dst" DemoFS.start
  = (Raise (OSError "Read-only file system"), DemoFS.start)
  /\ ~ exists counts st',
         convert_structure (H := DemoFS.read_only) "src" "dst" DemoFS.start
         = (Return counts, st').
Proof.
  assert (Hrun : convert_structure (H := DemoFS.read_only) "src" "dst"
                   DemoFS.start
                 = (Raise (OSError "Read-only file system"), DemoFS.start))
    by (by vm_compute).
  split; [done|]. rewrite Hrun. by intros (counts & st' & [=]).
Qed.

(** * Further properties of the decoder *)

(** ** Trimming *)

Lemma lstrip_idem s : Str.lstrip (Str.lstrip s) = Str.lstrip s.
Proof.
  induction s as [|a r IH]; simpl; [done|].
  destruct (Str.isspace a) eqn:Ha; [done|]. simpl. by rewrite Ha.
Qed.

(** What [lstrip] leaves is empty or starts with a printing character. *)
Lemma lstrip_head s :
  Str.lstrip s = EmptyString
  \/ exists a r, Str.lstrip s = String a r /\ Str.isspace a = false.
Proof.
  induction s as [|a r IH]; simpl; [by left|].
  destruct (Str.isspace a) eqn:Ha; [done|]. right. by exists a, r.
Qed.

Lemma rstrip_cons a r :
  Str.isspace a = false -> Str.rstrip (String a r) = String a (Str.rstrip r).
Proof. intros Ha. simpl. destruct (Str.rstrip r); by rewrite ?Ha. Qed.

Lemma rstrip_idem s : Str.rstrip (Str.rstrip s) = Str.rstrip s.
Proof.
  induction s as [|a r IH]; simpl; [done|].
  destruct (Str.rstrip r) as [|b t] eqn:Hr.
  - destruct (Str.isspace a) eqn:Ha; simpl; [done|]. by rewrite Ha.
  - change (Str.rstrip (String a (String b t)))
      with (match Str.rstrip (String b t) with
            | EmptyString =>
                if Str.isspace a then EmptyString else String a EmptyString
            | r' => String a r'
            end).
    by rewrite IH.
Qed.

Lemma strip_idem s : Str.strip (Str.strip s) = Str.strip s.
Proof.
  unfold Str.strip.
  destruct (lstrip_head s) as [->|(a & r & -> & Ha)]; [done|].
  rewrite (rstrip_cons _ _ Ha). simpl Str.lstrip. rewrite Ha.
  by rewrite <- (rstrip_cons _ _ Ha), rstrip_idem.
Qed.

(** ** What the fields are made of *)

Lemma contains_lstrip c s :
  Str.contains c (Str.lstrip s) = true -> Str.contains c s = true.
Proof.
  induction s as [|a r IH]; simpl; [done|].
  destruct (Str.isspace a); [|done].
  intros Hc. rewrite (IH Hc). by destruct (Ascii.eqb a c).
Qed.

Lemma contains_rstrip c s :
  Str.contains c (Str.rstrip s) = true -> Str.contains c s = true.
Proof.
  induction s as [|a r IH]; simpl; [done|].
  destruct (Str.rstrip r) as [|b t] eqn:Hr.
  - destruct (Str.isspace a); simpl; [done|].
    by destruct (Ascii.eqb a c).
  - simpl in *. destruct (Ascii.eqb a c); [done|]. exact IH.
Qed.

Lemma contains_strip c s :
  Str.contains c (Str.strip s) = true -> Str.contains c s = true.
Proof. intros H. by apply contains_lstrip, contains_rstrip. Qed.

Lemma contains_app_l c a b :
  Str.contains c a = true -> Str.contains c (a +:+ b) = true.
Proof.
  induction a as [|x a IH]; rewrite ?append_nil, ?append_cons; simpl; [done|].
  by destruct (Ascii.eqb x c).
Qed.

(** A field holds no separator, and no character the text does not hold. *)
Lemma split_fields sep c s p :
  p ∈ Str.split sep s ->
  Str.contains sep p = false
  /\ (Str.contains c p = true -> Str.contains c s = true).
Proof.
  revert p. induction s as [|a r IH]; intros p; simpl.
  - intros ->%list_elem_of_singleton. done.
  - destruct (Ascii.eqb a sep) eqn:Ha.
    + intros [->|Hp]%elem_of_cons; [done|].
      destruct (IH _ Hp) as [H1 H2]. split; [done|].
      intros Hc. rewrite (H2 Hc). by destruct (Ascii.eqb a c).
    + pose proof (split_nonempty sep r) as Hne.
      destruct (Str.split sep r) as [|h t]; [done|].
      intros [->|Hp]%elem_of_cons.
      * destruct (IH h) as [H1 H2]; [by left|]. simpl. rewrite Ha.
        split; [done|]. destruct (Ascii.eqb a c); [done|]. exact H2.
      * destruct (IH p) as [H1 H2]; [by right|]. split; [done|].
        intros Hc. rewrite (H2 Hc). by destruct (Ascii.eqb a c).
Qed.

(** [rsplit] cuts at the last separator. *)
Lemma rsplit1_decomp sep s :
  Str.contains sep s = true ->
  exists h t, Str.rsplit1 sep s = [h; t]
              /\ s = h +:+ String sep t /\ Str.contains sep t = false.
Proof.
  induction s as [|a r IH]; simpl; [done|].
  destruct (Str.contains sep r) eqn:Hr.
  - intros _. destruct (IH eq_refl) as (h & t & -> & -> & Ht).
    exists (String a h), t. by rewrite append_cons.
  - rewrite (rsplit1_nosep _ _ Hr).
    destruct (Ascii.eqb_spec a sep) as [->|Hne]; [|done].
    intros _. by exists EmptyString, r.
Qed.

(** The file name is its base, or its base, a dot and a dot-free
    extension. *)
Lemma base_name_decomp filename base :
  base_name filename = Return base ->
  (filename = base /\ Str.contains "." filename = false)
  \/ exists ext, filename = base +:+ String "." ext
                 /\ Str.contains "." ext = false.
Proof.
  unfold base_name. destruct (Str.contains "." filename) eqn:Hdot.
  - destruct (rsplit1_decomp _ _ Hdot) as (h & t & -> & Hs & Ht).
    intros [= <-]. right. by exists t.
  - intros [= <-]. by left.
Qed.

Lemma split_length sep s :
  length (Str.split sep s) = S (count_char sep s).
Proof.
  induction s as [|a r IH]; simpl; [done|].
  destruct (Ascii.eqb a sep); simpl; [by rewrite IH|].
  pose proof (split_nonempty sep r) as Hne.
  by destruct (Str.split sep r).
Qed.

(** The text is its fields with the separator between them. *)
Lemma split_one sep s p : Str.split sep s = [p] -> s = p.
Proof.
  revert p. induction s as [|a r IH]; intros p; simpl; [by intros [= <-]|].
  pose proof (split_nonempty sep r) as Hne.
  destruct (Ascii.eqb a sep).
  - intros [= <- Hr]. by rewrite Hr in Hne.
  - destruct (Str.split sep r) as [|h t]; [done|].
    intros [= <- ->]. by rewrite (IH h).
Qed.

Lemma split_more sep s p q rest :
  Str.split sep s = p :: q :: rest ->
  exists r, s = p +:+ String sep r /\ Str.split sep r = q :: rest.
Proof.
  revert p. induction s as [|a r IH]; intros p; simpl; [done|].
  destruct (Ascii.eqb_spec a sep) as [->|Hne].
  - intros [= <- Hr]. by exists r.
  - destruct (Str.split sep r) as [|h t] eqn:Hr; [done|].
    intros [= <- ->]. destruct (IH h eq_refl) as (r' & -> & Hr').
    exists r'. by rewrite append_cons.
Qed.

Lemma split_four sep s p1 p2 p3 p4 :
  Str.split sep s = [p1; p2; p3; p4] ->
  s = p1 +:+ String sep (p2 +:+ String sep (p3 +:+ String sep p4)).
Proof.
  intros H.
  destruct (split_more _ _ _ _ _ H) as (r1 & -> & H1).
  destruct (split_more _ _ _ _ _ H1) as (r2 & -> & H2).
  destruct (split_more _ _ _ _ _ H2) as (r3 & -> & H3).
  by rewrite (split_one _ _ _ H3).
Qed.

(** The decoded record of a name with four fields. *)
Lemma parse_four_inv filename base d records :
  base_name filename = Return base ->
  parse_video_filename filename = Return (d, records) ->
  length (Str.split "_" base) = 4 ->
  exists p1 p2 p3 p4,
    Str.split "_" base = [p1; p2; p3; p4] /\ records = []
    /\ speaker d = Str.strip p1 /\ language d = Str.strip p2
    /\ emotion d = Str.strip p3 /\ detail d = Str.strip p4
    /\ gender d = gender_loop Gender (Str.strip p1) "Unknown".
Proof.
  intros Hb Hd Hlen.
  destruct (Str.split "_" base) as [|p1 [|p2 [|p3 [|p4 [|p5 l]]]]] eqn:Hs;
    try done.
  rewrite (parse_four _ _ _ _ _ _ Hb Hs) in Hd. injection Hd as <- <-.
  by exists p1, p2, p3, p4.
Qed.

(** X1: the four raw codes of a decoded name with four fields carry no
    white space at their ends and no underscore: trimming them again changes
    nothing. *)
Theorem X1_codes_trimmed (filename base p1 p2 p3 p4 : string) :
  base_name filename = Return base ->
  Str.split "_" base = [p1; p2; p3; p4] ->
  exists d,
    parse_video_filename filename = Return (d, [])
    /\ Forall (fun code => Str.strip code = code
                           /\ Str.contains "_" code = false)
         [speaker d; language d; emotion d; detail d].
Proof.
  intros Hb Hs. eexists. split; [apply (parse_four _ _ _ _ _ _ Hb Hs)|].
  cbn [speaker language emotion detail].
  assert (Hp : forall p, p ∈ [p1; p2; p3; p4] ->
                 Str.strip (Str.strip p) = Str.strip p
                 /\ Str.contains "_" (Str.strip p) = false).
  { intros p Hp. split; [apply strip_idem|]. rewrite <- Hs in Hp.
    destruct (split_fields "_" "_" _ _ Hp) as [Hno _].
    destruct (Str.contains "_" (Str.strip p)) eqn:Hc; [|done].
    by rewrite (contains_strip _ _ Hc) in Hno. }
  repeat (apply Forall_cons; split;
          [apply Hp; rewrite !elem_of_cons; by eauto 6|]).
  apply Forall_nil_2.
Qed.

Lemma X1_codes_trimmed_witness :
  exists d,
    parse_video_filename " A1 _EN_ H_S1 .mp4" = Return (d, [])
    /\ Forall (fun code => Str.strip code = code
                           /\ Str.contains "_" code = false)
         [speaker d; language d; emotion d; detail d].
Proof.
  apply (X1_codes_trimmed " A1 _EN_ H_S1 .mp4" " A1 _EN_ H_S1 "
           " A1 " "EN" " H" "S1 "); by vm_compute.
Defined.

Example parse_spaces :
  parse_video_filename " A1 _EN_ H_S1 .mp4"
  = Return
      ({| speaker := "A1"; speaker_name := "Speaker One"; gender := "M";
          language := "EN"; language_full := "English";
          emotion := "H"; emotion_full := "Happy";
          detail := "S1"; sentence := "Can't you hear my voice?" |}, []).
Proof. vm_compute. reflexivity. Qed.

(** Two names with the same base decode to the same record. *)
Lemma parse_same_base f1 f2 base :
  base_name f1 = Return base -> base_name f2 = Return base ->
  exists d r1 r2,
    parse_video_filename f1 = Return (d, r1)
    /\ parse_video_filename f2 = Return (d, r2)
    /\ length r1 = length r2.
Proof.
  intros H1 H2.
  destruct (decide (length (Str.split "_" base) = 4)) as [Hlen|Hlen].
  - destruct (Str.split "_" base) as [|p1 [|p2 [|p3 [|p4 [|p5 l]]]]] eqn:Hs;
      try done.
    rewrite (parse_four _ _ _ _ _ _ H1 Hs), (parse_four _ _ _ _ _ _ H2 Hs).
    by eexists _, _, _.
  - rewrite (parse_fallback _ _ H1 Hlen), (parse_fallback _ _ H2 Hlen).
    by eexists _, _, _.
Qed.

(** X2: the decoded record does not depend on the extension: a base
    followed by a dot and any two dot-free extensions decodes to the same
    record, which is also the record of the bare base when the base has no
    dot. *)
Theorem X2_extension_irrelevant (b e1 e2 : string) :
  Str.contains "." e1 = false ->
  Str.contains "." e2 = false ->
  exists d r1 r2,
    parse_video_filename (b +:+ "." +:+ e1) = Return (d, r1)
    /\ parse_video_filename (b +:+ "." +:+ e2) = Return (d, r2)
    /\ (Str.contains "." b = false ->
        exists r0, parse_video_filename b = Return (d, r0)).
Proof.
  intros H1 H2.
  destruct (parse_same_base (b +:+ "." +:+ e1) (b +:+ "." +:+ e2) b)
    as (d & r1 & r2 & Hd1 & Hd2 & _);
    [apply (base_name_ext b e1 H1) | apply (base_name_ext b e2 H2) |].
  exists d, r1, r2. split; [done|]. split; [done|].
  intros Hb.
  destruct (parse_same_base (b +:+ "." +:+ e1) b b) as (d' & r1' & r0 & Hd1' & Hd0 & _);
    [apply (base_name_ext b e1 H1) | by unfold base_name; rewrite Hb |].
  rewrite Hd1 in Hd1'. injection Hd1' as -> _. by exists r0.
Qed.

Lemma X2_extension_irrelevant_witness :
  exists d r1 r2,
    parse_video_filename "A3_HI_S_S2.mov" = Return (d, r1)
    /\ parse_video_filename "A3_HI_S_S2.MP4" = Return (d, r2)
    /\ (Str.contains "." "A3_HI_S_S2" = false ->
        exists r0, parse_video_filename "A3_HI_S_S2" = Return (d, r0)).
Proof.
  apply (X2_extension_irrelevant "A3_HI_S_S2" "mov" "MP4"); by vm_compute.
Defined.

(** X3: a name decodes through its tables exactly when its base holds
    three underscores; with any other number it decodes to the fallback
    record and the warning is logged. *)
Theorem X3_three_underscores (filename base : string) :
  base_name filename = Return base ->
  (count_char "_" base = 3 <->
   exists d, parse_video_filename filename = Return (d, []))
  /\ (count_char "_" base <> 3 ->
      parse_video_filename filename
      = Return
          (unknown_details,
           [LogRecord WARNING
              "Filename structure unexpected: %s, expected 4 parts separated by underscores"
              [ArgStr filename]])).
Proof.
  intros Hb. pose proof (split_length "_" base) as Hlen. split; [split|].
  - intros H3.
    destruct (Str.split "_" base) as [|p1 [|p2 [|p3 [|p4 [|p5 l]]]]] eqn:Hs;
      simpl in Hlen; try lia.
    rewrite (parse_four _ _ _ _ _ _ Hb Hs). by eexists.
  - intros [d Hd].
    destruct (decide (count_char "_" base = 3)) as [|Hne]; [done|].
    rewrite (parse_fallback _ _ Hb) in Hd by lia. done.
  - intros Hne. apply (parse_fallback _ _ Hb). lia.
Qed.

Lemma X3_three_underscores_witness :
  (count_char "_" "A1_EN_H_S1" = 3 <->
   exists d, parse_video_filename "A1_EN_H_S1.mp4" = Return (d, []))
  /\ (count_char "_" "A1_EN_H_S1" <> 3 ->
      parse_video_filename "A1_EN_H_S1.mp4"
      = Return
          (unknown_details,
           [LogRecord WARNING
              "Filename structure unexpected: %s, expected 4 parts separated by underscores"
              [ArgStr "A1_EN_H_S1.mp4"]])).
Proof. apply (X3_three_underscores "A1_EN_H_S1.mp4"). by vm_compute. Defined.

(** X4: nothing of a name with four fields is lost but white space around
    the fields: the base is the four fields joined by underscores, the name
    is the base or the base with a dot and a dot-free extension, and when
    the fields carry no white space at their ends the base is the four raw
    codes of the decoded record joined by underscores. *)
Theorem X4_name_rebuilt (filename base p1 p2 p3 p4 : string) :
  base_name filename = Return base ->
  Str.split "_" base = [p1; p2; p3; p4] ->
  base = p1 +:+ "_" +:+ p2 +:+ "_" +:+ p3 +:+ "_" +:+ p4
  /\ (filename = base
      \/ exists ext, filename = base +:+ "." +:+ ext
                     /\ Str.contains "." ext = false)
  /\ exists d,
       parse_video_filename filename = Return (d, [])
       /\ (Forall (fun p => Str.strip p = p) [p1; p2; p3; p4] ->
           base = speaker d +:+ "_" +:+ language d +:+ "_" +:+ emotion d
                  +:+ "_" +:+ detail d).
Proof.
  intros Hb Hs. split; [apply (split_four _ _ _ _ _ _ Hs)|]. split.
  - destruct (base_name_decomp _ _ Hb) as [[-> _]|(ext & -> & Hext)];
      [by left | right; by exists ext].
  - eexists. split; [apply (parse_four _ _ _ _ _ _ Hb Hs)|].
    cbn [speaker language emotion detail].
    intros (-> & (-> & (-> & (-> & _)%Forall_cons)%Forall_cons)%Forall_cons)%Forall_cons.
    apply (split_four _ _ _ _ _ _ Hs).
Qed.

Lemma X4_name_rebuilt_witness :
  "A1_EN_H_S1" = "A1" +:+ "_" +:+ "EN" +:+ "_" +:+ "H" +:+ "_" +:+ "S1"
  /\ ("A1_EN_H_S1.mp4" = "A1_EN_H_S1"
      \/ exists ext, "A1_EN_H_S1.mp4" = "A1_EN_H_S1" +:+ "." +:+ ext
                     /\ Str.contains "." ext = false)
  /\ exists d,
       parse_video_filename "A1_EN_H_S1.mp4" = Return (d, [])
       /\ (Forall (fun p => Str.strip p = p) ["A1"; "EN"; "H"; "S1"] ->
           "A1_EN_H_S1" = speaker d +:+ "_" +:+ language d +:+ "_" +:+ emotion d
                          +:+ "_" +:+ detail d).
Proof.
  apply (X4_name_rebuilt "A1_EN_H_S1.mp4" "A1_EN_H_S1" "A1" "EN" "H" "S1");
    by vm_compute.
Defined.

(** ** The speaker table and the gender groups *)

Lemma list_to_map_pairs (P : string -> string -> Prop)
    (l : list (string * string)) k v :
  Forall (fun kv => P kv.1 kv.2) l ->
  (list_to_map l : gmap string string) !! k = Some v -> P k v.
Proof.
  intros HF Hk. apply elem_of_list_to_map_2 in Hk.
  rewrite Forall_forall in HF. exact (HF _ Hk).
Qed.

(** Every named speaker is listed in a group, and the name is not the
    code. *)
Lemma SPEAKER_NAME_DICT_listed k v :
  SPEAKER_NAME_DICT !! k = Some v ->
  v <> k /\ exists g, get_gender k = Return g.
Proof.
  apply (list_to_map_pairs
           (fun k v => v <> k /\ exists g, get_gender k = Return g)).
  repeat (apply Forall_cons; split;
          [split; [by vm_compute | eexists; by vm_compute]|]).
  apply Forall_nil_2.
Qed.

(** Every listed speaker is named. *)
Lemma Gender_named k g :
  get_gender k = Return g -> is_Some (SPEAKER_NAME_DICT !! k).
Proof.
  intros (speakers & Hg & Hk)%get_gender_loop_found. unfold Gender in Hg.
  repeat (apply elem_of_cons in Hg as [[= -> ->]|Hg];
          [repeat (apply elem_of_cons in Hk as [->|Hk];
                   [eexists; by vm_compute|]);
           by apply elem_of_nil in Hk|]).
  by apply elem_of_nil in Hg.
Qed.

(** X5: the speaker table and the gender groups cover the same codes.
    For a name with four fields the gender of the decoded record is
    "Unknown" exactly when the speaker table has no entry for the speaker
    code, which is exactly when the speaker name is the code itself. *)
Theorem X5_unknown_gender_unnamed (filename base p1 p2 p3 p4 : string) :
  base_name filename = Return base ->
  Str.split "_" base = [p1; p2; p3; p4] ->
  exists d,
    parse_video_filename filename = Return (d, [])
    /\ (gender d = "Unknown" <-> SPEAKER_NAME_DICT !! speaker d = None)
    /\ (speaker_name d = speaker d <-> SPEAKER_NAME_DICT !! speaker d = None).
Proof.
  intros Hb Hs. eexists. split; [apply (parse_four _ _ _ _ _ _ Hb Hs)|].
  cbn [speaker gender speaker_name]. rewrite gender_loop_strict.
  unfold dict_get. set (spk := Str.strip p1).
  destruct (SPEAKER_NAME_DICT !! spk) as [v|] eqn:Hv.
  - destruct (SPEAKER_NAME_DICT_listed _ _ Hv) as (Hne & g & Hg).
    unfold get_gender in Hg. rewrite Hg. simpl. split; split; try done.
    intros ->. by destruct (get_gender_label _ _ Hg).
  - split; [|done].
    destruct (get_gender_loop Gender spk) as [g|e] eqn:Hg; [|done].
    destruct (Gender_named _ _ Hg) as [v Hv']. congruence.
Qed.

Lemma X5_unknown_gender_unnamed_witness :
  exists d,
    parse_video_filename "Z99_EN_H_S1.mp4" = Return (d, [])
    /\ (gender d = "Unknown" <-> SPEAKER_NAME_DICT !! speaker d = None)
    /\ (speaker_name d = speaker d <-> SPEAKER_NAME_DICT !! speaker d = None).
Proof.
  apply (X5_unknown_gender_unnamed "Z99_EN_H_S1.mp4" "Z99_EN_H_S1"
           "Z99" "EN" "H" "S1"); by vm_compute.
Defined.

(** The gender of a decoded record is one of three labels. *)
Lemma gender_label filename d records :
  parse_video_filename filename = Return (d, records) ->
  gender d = "M" \/ gender d = "F" \/ gender d = "Unknown".
Proof.
  intros Hd. destruct (base_name_total filename) as [base Hb].
  destruct (decide (length (Str.split "_" base) = 4)) as [Hlen|Hlen].
  - destruct (parse_four_inv _ _ _ _ Hb Hd Hlen)
      as (p1 & p2 & p3 & p4 & _ & _ & _ & _ & _ & _ & ->).
    rewrite gender_loop_strict.
    destruct (get_gender_loop Gender (Str.strip p1)) as [g|e] eqn:Hg;
      [|by right; right].
    destruct (get_gender_label _ _ Hg) as [->| ->]; [by left | by right; left].
  - rewrite (parse_fallback _ _ Hb Hlen) in Hd. injection Hd as <- _.
    by right; right.
Qed.



(** * Further properties of the reorganizer *)

(** The records the decoder emits are warnings. *)
Lemma parse_records filename d records :
  parse_video_filename filename = Return (d, records) ->
  Forall (fun r => log_lvl r = WARNING) records.
Proof.
  intros Hd. destruct (base_name_total filename) as [base Hb].
  destruct (decide (length (Str.split "_" base) = 4)) as [Hlen|Hlen].
  - destruct (parse_four_inv _ _ _ _ Hb Hd Hlen)
      as (p1 & p2 & p3 & p4 & _ & -> & _). apply Forall_nil_2.
  - rewrite (parse_fallback _ _ Hb Hlen) in Hd. injection Hd as _ <-.
    by repeat constructor.
Qed.

Lemma count_level_app lvl rs1 rs2 :
  count_level lvl (rs1 ++ rs2) = count_level lvl rs1 + count_level lvl rs2.
Proof. unfold count_level. by rewrite filter_app, length_app. Qed.

Lemma count_level_other lvl lvl' rs :
  lvl <> lvl' -> Forall (fun r => log_lvl r = lvl') rs ->
  count_level lvl rs = 0.
Proof.
  intros Hne. unfold count_level. induction 1 as [|r rs Hr _ IH]; [done|].
  rewrite filter_cons_False; [done | congruence].
Qed.

Lemma count_level_single lvl r :
  count_level lvl [r] = if decide (log_lvl r = lvl) then 1 else 0.
Proof.
  unfold count_level. rewrite filter_cons, filter_nil. by case_decide.
Qed.

Section ReorganizerMore.

Context `{FileSystem World}.

(** How the body of the loop can complete. *)
Lemma file_body_return dst_dir root sc ec file st counts st' :
  file_body dst_dir root (sc, ec) file st = (Return counts, st') ->
  (is_video file = false /\ counts = (sc, ec) /\ st' = st)
  \/ (is_video file = true
      /\ exists d records,
           parse_video_filename file = Return (d, records)
           /\ ((counts = (S sc, ec)
                /\ logs st'
                   = logs st ++ records
                     ++ [LogRecord INFO "Copied %s to %s"
                           [ArgStr (os_path_join root [file]);
                            ArgStr (os_path_join (target_dir_of dst_dir d)
                                      [file])]])
               \/ (exists e,
                     caught e = true /\ counts = (sc, S ec)
                     /\ logs st'
                        = logs st ++ records
                          ++ [LogRecord ERROR "Error processing %s: %s"
                                [ArgStr file; ArgExn e]]))).
Proof.
  destruct (is_video file) eqn:Hv.
  - destruct (parse_total file) as (d & records & Hd).
    rewrite (file_body_video _ _ _ _ _ _ Hv), (copy_video_calls _ _ _ _ _ _ Hd).
    intros Hrun. right. split; [done|]. exists d, records. split; [done|].
    unfold target_dir_of. rewrite os_path_join_snoc. cbn [app].
    unfold handle, with_error in Hrun. cbn [world logs] in Hrun.
    destruct (os_makedirs _ (world st)) as [[[]|e] w1].
    + destruct (shutil_copy2 _ _ w1) as [[[]|e] w2].
      * injection Hrun as <- <-. left. cbn [logs]. by rewrite <- app_assoc.
      * destruct (caught e) eqn:He; [|done]. injection Hrun as <- <-.
        right. exists e. cbn [logs]. by rewrite <- app_assoc.
    + destruct (caught e) eqn:He; [|done]. injection Hrun as <- <-.
      right. exists e. cbn [logs]. by rewrite <- app_assoc.
  - rewrite (file_body_skip _ _ _ _ _ Hv). intros [= <- <-]. by left.
Qed.

(** What holds before a loop and is kept by every completed round holds
    when the loop completes. *)
Lemma for_each_kept {A B} (P : A -> @state World -> Prop)
    (body : A -> B -> @py World A) (xs : list B) :
  (forall acc x st acc' st',
      P acc st -> body acc x st = (Return acc', st') -> P acc' st') ->
  forall acc st acc' st',
    P acc st -> for_each xs body acc st = (Return acc', st') -> P acc' st'.
Proof.
  intros Hbody. induction xs as [|x rest IH]; intros acc st acc' st' HP; simpl.
  - by intros [= <- <-].
  - unfold mbind, py_bind.
    destruct (body acc x st) as [[acc1|e] st1] eqn:Hx; [|done].
    apply IH. by eapply Hbody.
Qed.

(** A completed loop has added up what its rounds add. *)
Lemma for_each_sum {A B} (m : A -> nat) (w : B -> nat)
    (body : A -> B -> @py World A) (xs : list B) :
  (forall acc x st acc' st',
      body acc x st = (Return acc', st') -> m acc' = m acc + w x) ->
  forall acc st acc' st',
    for_each xs body acc st = (Return acc', st') ->
    m acc' = m acc + sum_list (w <$> xs).
Proof.
  intros Hbody.
  induction xs as [|x rest IH]; intros acc st acc' st';
    rewrite ?fmap_nil, ?fmap_cons; simpl.
  - intros [= <- <-]. lia.
  - unfold mbind, py_bind.
    destruct (body acc x st) as [[acc1|e] st1] eqn:Hx; [|done].
    intros Hrest. rewrite (IH _ _ _ _ Hrest), (Hbody _ _ _ _ _ Hx). lia.
Qed.

(** X7: when the walk yields no qualifying file, [convert_structure]
    leaves the file system and the log as they were, whatever the file
    system calls would have done; it returns (0, 0), unless the walk itself
    raises, and then that exception leaves it. *)
Theorem X7_nothing_to_do (src_dir dst_dir : string) (st : state) :
  count_videos (os_walk src_dir (world st)).1 = 0 ->
  convert_structure src_dir dst_dir st
  = (match (os_walk src_dir (world st)).2 with
     | None => Return (0, 0)
     | Some e => Raise e
     end, st).
Proof.
  rewrite convert_structure_run. unfold count_videos.
  generalize (os_walk src_dir (world st)).1. intros walk Hzero.
  assert (Hloop : for_each walk (dir_body dst_dir) (0, 0) st
                  = (Return (0, 0), st)); [|by rewrite Hloop].
  revert Hzero. generalize (0, 0). intros counts.
  induction walk as [|[[root dirs] files] walk IH];
    rewrite ?fmap_nil, ?fmap_cons; simpl; [done|].
  intros Hsum. unfold mbind at 1, py_bind at 1.
  assert (Hfiles : for_each files (file_body dst_dir root) counts st
                   = (Return counts, st)).
  { assert (Hz : sum_list (video_weight <$> files) = 0) by lia.
    clear -Hz. induction files as [|file files IHf];
      rewrite ?fmap_nil, ?fmap_cons in Hz; simpl in *; [done|].
    unfold mbind, py_bind. unfold video_weight at 1 in Hz.
    destruct (is_video file) eqn:Hv; [lia|].
    rewrite (file_body_skip _ _ _ _ _ Hv). apply IHf. lia. }
  rewrite Hfiles. apply IH. lia.
Qed.

(** X8: whenever [convert_structure] returns, the two counters add up to
    the number of qualifying files the walk yields: each such file is
    counted once, as a success or as an error. *)
Theorem X8_every_video_counted (src_dir dst_dir : string) (st st' : state)
    (sc ec : nat) :
  convert_structure src_dir dst_dir st = (Return (sc, ec), st') ->
  sc + ec = count_videos (os_walk src_dir (world st)).1.
Proof.
  rewrite convert_structure_run. unfold count_videos.
  destruct (for_each _ (dir_body dst_dir) (0, 0) st) as [[counts|e] st1] eqn:Hrun;
    [|done].
  destruct (os_walk src_dir (world st)).2; [done|]. intros [= -> ->].
  apply (for_each_sum (fun acc : nat * nat => acc.1 + acc.2)
           (fun '(_, _, files) => sum_list (video_weight <$> files))) in Hrun;
    [exact Hrun|].
  intros acc [[root dirs] files] st0 acc' st0'.
  apply (for_each_sum (fun acc : nat * nat => acc.1 + acc.2) video_weight).
  clear. intros [sc0 ec0] file st0 acc' st0' Hbody. unfold video_weight.
  destruct (file_body_return _ _ _ _ _ _ _ _ Hbody)
    as [(-> & -> & _)|(-> & d & records & _ & [[-> _]|(e & _ & -> & _)])];
    simpl; lia.
Qed.


Lemma for_each_cons {A B} (body : A -> B -> @py World A) x xs acc st :
  for_each (x :: xs) body acc st
  = match body acc x st with
    | (Return acc', st') => for_each xs body acc' st'
    | (Raise e, st') => (Raise e, st')
    end.
Proof. reflexivity. Qed.

Lemma sum_list_cons (x : nat) xs : sum_list (x :: xs) = x + sum_list xs.
Proof. reflexivity. Qed.

(** X9: when directory creation and copy never raise, every qualifying
    file the walk yields is counted as a success and none as an error: a
    name that does not decode is not an error.  [convert_structure] returns
    these counters, unless the walk itself raises, and then that exception
    leaves it. *)
Theorem X9_no_failure_no_error (src_dir dst_dir : string) (st : state) :
  (forall path w, exists w1, os_makedirs path w = (Return tt, w1)) ->
  (forall src dst w, exists w1, shutil_copy2 src dst w = (Return tt, w1)) ->
  exists st',
    for_each (os_walk src_dir (world st)).1 (dir_body dst_dir) (0, 0) st
    = (Return (count_videos (os_walk src_dir (world st)).1, 0), st')
    /\ convert_structure src_dir dst_dir st
       = (match (os_walk src_dir (world st)).2 with
          | None => Return (count_videos (os_walk src_dir (world st)).1, 0)
          | Some e => Raise e
          end, st').
Proof.
  intros Hmk Hcp. rewrite convert_structure_run. unfold count_videos.
  generalize (os_walk src_dir (world st)).1. intros walk.
  assert (Hgen : forall sc st0, exists st',
             for_each walk (dir_body dst_dir) (sc, 0) st0
             = (Return
                  (sc + sum_list
                          ((fun '(_, _, files) =>
                              sum_list (video_weight <$> files)) <$> walk),
                   0), st')).
  { induction walk as [|[[root dirs] files] walk IH]; intros sc st0;
      rewrite ?fmap_nil, ?fmap_cons, ?for_each_cons, ?sum_list_cons.
    - exists st0. simpl. by rewrite Nat.add_0_r.
    - assert (Hfiles : forall sc1 st1, exists st2,
                 for_each files (file_body dst_dir root) (sc1, 0) st1
                 = (Return (sc1 + sum_list (video_weight <$> files), 0), st2)).
      { clear IH. induction files as [|file files IHf]; intros sc1 st1;
          rewrite ?fmap_nil, ?fmap_cons, ?for_each_cons, ?sum_list_cons.
        - exists st1. simpl. by rewrite Nat.add_0_r.
        - unfold video_weight at 1.
          destruct (is_video file) eqn:Hv.
          + destruct (parse_total file) as (d & records & Hd).
            rewrite (file_body_video _ _ _ _ _ _ Hv),
              (copy_video_calls _ _ _ _ _ _ Hd).
            destruct (Hmk (os_path_join dst_dir
                             [language d; gender d; emotion d; detail d])
                        (world st1)) as [w1 ->].
            destruct (Hcp (os_path_join root [file])
                        (os_path_join dst_dir
                           [language d; gender d; emotion d; detail d; file])
                        w1) as [w2 ->].
            destruct (IHf (S sc1) {| world := w2;
                                     logs := (logs st1 ++ records)
                                             ++ [LogRecord INFO "Copied %s to %s"
                                                   [ArgStr (os_path_join root [file]);
                                                    ArgStr (os_path_join dst_dir
                                                              [language d; gender d;
                                                               emotion d; detail d;
                                                               file])]] |})
              as [st2 Hst2].
            exists st2. cbn [world logs]. rewrite Hst2. do 2 f_equal. f_equal. lia.
          + rewrite (file_body_skip _ _ _ _ _ Hv).
            destruct (IHf sc1 st1) as [st2 Hst2]. exists st2.
            by rewrite Hst2. }
      cbn [dir_body]. destruct (Hfiles sc st0) as [st1 ->].
      destruct (IH (sc + sum_list (video_weight <$> files)) st1) as [st2 Hst2].
      exists st2. rewrite Hst2. do 2 f_equal. f_equal. lia. }
  destruct (Hgen 0 st) as [st' Hrun]. exists st'. by rewrite Hrun.
Qed.

(** X10: whenever [convert_structure] returns, the success counter is the
    number of "Copied" lines it has logged and the error counter is the
    number of error lines it has logged; no line of the log it started with
    is lost. *)
Theorem X10_counters_match_log (src_dir dst_dir : string) (st st' : state)
    (sc ec : nat) :
  convert_structure src_dir dst_dir st = (Return (sc, ec), st') ->
  count_level INFO (logs st') = count_level INFO (logs st) + sc
  /\ count_level ERROR (logs st') = count_level ERROR (logs st) + ec
  /\ exists added, logs st' = logs st ++ added.
Proof.
  rewrite convert_structure_run.
  destruct (for_each _ (dir_body dst_dir) (0, 0) st) as [[counts|e] st1] eqn:Hrun;
    [|done].
  destruct (os_walk src_dir (world st)).2; [done|]. intros [= -> ->].
  set (P := fun (acc : nat * nat) (st1 : @state World) =>
              count_level INFO (logs st1) = count_level INFO (logs st) + acc.1
              /\ count_level ERROR (logs st1)
                 = count_level ERROR (logs st) + acc.2
              /\ exists added, logs st1 = logs st ++ added).
  apply (for_each_kept P) in Hrun; [exact Hrun | |].
  - intros acc [[root dirs] files] st0 acc' st0' HP.
    apply (for_each_kept P); [|exact HP].
    clear. intros [sc0 ec0] file st0 acc' st0' (HI & HE & added & Hadd) Hbody.
    destruct (file_body_return _ _ _ _ _ _ _ _ Hbody)
      as [(_ & -> & ->)|(_ & d & records & Hd & [[-> Hl]|(e & _ & -> & Hl)])].
    + split; [done|]. split; [done|]. by exists added.
    + pose proof (parse_records _ _ _ Hd) as Hw.
      unfold P. rewrite Hl, !count_level_app.
      rewrite (count_level_other INFO WARNING records) by done.
      rewrite (count_level_other ERROR WARNING records) by done.
      rewrite !count_level_single. cbn [fst snd log_lvl].
      repeat case_decide; try done. simpl in HI, HE.
      split; [lia|]. split; [lia|].
      eexists. by rewrite Hadd, <- app_assoc.
    + pose proof (parse_records _ _ _ Hd) as Hw.
      unfold P. rewrite Hl, !count_level_app.
      rewrite (count_level_other INFO WARNING records) by done.
      rewrite (count_level_other ERROR WARNING records) by done.
      rewrite !count_level_single. cbn [fst snd log_lvl].
      repeat case_decide; try done. simpl in HI, HE.
      split; [lia|]. split; [lia|].
      eexists. by rewrite Hadd, <- app_assoc.
  - unfold P. simpl. split; [lia|]. split; [lia|].
    exists []. by rewrite app_nil_r.
Qed.

End ReorganizerMore.

Lemma X7_nothing_to_do_witness :
  convert_structure
    (H := {| os_walk := DemoFS.walk [("src", [], ["notes.txt"; "mp4"])];
             os_makedirs := DemoFS.makedirs true;
             shutil_copy2 := DemoFS.copy2 |})
    "src" "dst" DemoFS.start
  = (Return (0, 0), DemoFS.start)
  /\ convert_structure (H := DemoFS.writable) nul_dst "dst" DemoFS.start
     = (Raise (ValueError "embedded null byte"), DemoFS.start).
Proof.
  split.
  - exact (X7_nothing_to_do
             (H := {| os_walk := DemoFS.walk [("src", [], ["notes.txt"; "mp4"])];
                      os_makedirs := DemoFS.makedirs true;
                      shutil_copy2 := DemoFS.copy2 |})
             "src" "dst" DemoFS.start eq_refl).
  - exact (X7_nothing_to_do (H := DemoFS.writable) nul_dst "dst" DemoFS.start
             eq_refl).
Defined.

Lemma X8_every_video_counted_witness :
  2 + 0 = count_videos (os_walk (FileSystem := DemoFS.writable) "src"
                          (world DemoFS.start)).1.
Proof.
  eapply (X8_every_video_counted (H := DemoFS.writable) "src" "dst"
            DemoFS.start).
  by vm_compute.
Defined.

Lemma X9_no_failure_no_error_witness :
  exists st',
    convert_structure (H := quiet_fs) "src" "dst" DemoFS.start
    = (Return (2, 0), st').
Proof.
  destruct (X9_no_failure_no_error (H := quiet_fs) "src" "dst" DemoFS.start)
    as (st' & _ & Hrun).
  - intros path w. by eexists.
  - intros src dst w. by eexists.
  - exists st'. exact Hrun.
Defined.

Lemma X10_counters_match_log_witness :
  exists st',
    convert_structure (H := DemoFS.writable) "src" nul_dst DemoFS.start
    = (Return (0, 2), st')
    /\ count_level INFO (logs st') = count_level INFO (logs DemoFS.start) + 0
    /\ count_level ERROR (logs st') = count_level ERROR (logs DemoFS.start) + 2
    /\ exists added, logs st' = logs DemoFS.start ++ added.
Proof.
  eexists. split; [by vm_compute|].
  apply (X10_counters_match_log (H := DemoFS.writable) "src" nul_dst).
  by vm_compute.
Defined.

(** * Further properties of the destination path *)

Lemma startswith_slash b :
  Str.startswith "/" b = true -> Str.contains "/" b = true.
Proof.
  destruct b as [|c b]; cbn [Str.startswith Str.contains]; [done|].
  rewrite andb_true_r. intros ->%Ascii.eqb_eq. by rewrite Ascii.eqb_refl.
Qed.

Lemma join_step_prefix path b :
  Str.startswith "/" b = false -> exists r, join_step path b = path +:+ r.
Proof.
  intros Hb. unfold join_step. rewrite Hb.
  destruct (String.eqb path EmptyString || Str.endswith "/" path); by eexists.
Qed.

(** Components without a leading slash only extend the path. *)
Lemma os_path_join_prefix a p :
  Forall (fun b => Str.startswith "/" b = false) p ->
  exists r, os_path_join a p = a +:+ r.
Proof.
  unfold os_path_join. intros Hp. revert a.
  induction Hp as [|b p Hb _ IH]; intros a; simpl.
  - exists EmptyString. induction a as [|x a IHa]; [done|].
    by rewrite append_cons, <- IHa.
  - destruct (join_step_prefix a b Hb) as [r0 ->].
    destruct (IH (a +:+ r0)) as [r ->]. exists (r0 +:+ r).
    by rewrite append_assoc.
Qed.

(** A character that is not in the file name is in none of the four path
    components of its record, unless the fallback texts or the labels hold
    it. *)
Lemma parse_components c filename d records :
  parse_video_filename filename = Return (d, records) ->
  Str.contains c filename = false ->
  Str.contains c "unknown" = false ->
  Forall (fun g => Str.contains c g = false) ["M"; "F"; "Unknown"] ->
  Forall (fun s => Str.contains c s = false)
    [language d; gender d; emotion d; detail d].
Proof.
  intros Hd Hfile Hunk (HM & (HF & (HU & _)%Forall_cons)%Forall_cons)%Forall_cons.
  assert (Hg : Str.contains c (gender d) = false).
  { by destruct (gender_label _ _ _ Hd) as [->|[->| ->]]. }
  destruct (base_name_total filename) as [base Hb].
  assert (Hbase : Str.contains c base = false).
  { destruct (Str.contains c base) eqn:Hc; [|done].
    destruct (base_name_decomp _ _ Hb) as [[-> _]|(ext & -> & _)];
      [congruence|].
    by rewrite (contains_app_l _ _ _ Hc) in Hfile. }
  destruct (decide (length (Str.split "_" base) = 4)) as [Hlen|Hlen].
  - destruct (parse_four_inv _ _ _ _ Hb Hd Hlen)
      as (p1 & p2 & p3 & p4 & Hs & _ & _ & Hl & He & Hdt & _).
    assert (Hp : forall p, p ∈ [p1; p2; p3; p4] ->
                   Str.contains c (Str.strip p) = false).
    { intros p Hp. rewrite <- Hs in Hp.
      destruct (split_fields "_" c _ _ Hp) as [_ Hsub].
      destruct (Str.contains c (Str.strip p)) eqn:Hc; [|done].
      by rewrite (Hsub (contains_strip _ _ Hc)) in Hbase. }
    rewrite Hl, He, Hdt.
    repeat (apply Forall_cons; split;
            [first [exact Hg | apply Hp; rewrite !elem_of_cons; by eauto 6]|]).
    apply Forall_nil_2.
  - rewrite (parse_fallback _ _ Hb Hlen) in Hd. injection Hd as <- _.
    by repeat (apply Forall_cons; split; [done|]).
Qed.

(** X11: for a file name without a slash, as [os.walk] gives them, the
    directory made and the path copied to both start with the destination
    root as given: the codes of a name cannot redirect the copy to an
    absolute path. *)
Theorem X11_under_destination_root (dst_dir file : string) (d : details)
    (records : list log_record) :
  parse_video_filename file = Return (d, records) ->
  Str.contains "/" file = false ->
  (exists r, target_dir_of dst_dir d = dst_dir +:+ r)
  /\ (exists r, os_path_join (target_dir_of dst_dir d) [file] = dst_dir +:+ r).
Proof.
  intros Hd Hfile.
  assert (Hc : Forall (fun b => Str.startswith "/" b = false)
                 [language d; gender d; emotion d; detail d; file]).
  { assert (Hno : forall b, Str.contains "/" b = false ->
                    Str.startswith "/" b = false).
    { intros b Hb. destruct (Str.startswith "/" b) eqn:Hs; [|done].
      by rewrite (startswith_slash _ Hs) in Hb. }
    pose proof (parse_components "/" _ _ _ Hd Hfile eq_refl) as Hp.
    rewrite !Forall_cons in Hp. rewrite !Forall_cons.
    destruct Hp as (Hl & Hg & He & Hdt & _); [by repeat constructor|].
    by repeat split; try apply Hno. }
  split.
  - apply os_path_join_prefix. rewrite !Forall_cons in Hc. rewrite !Forall_cons.
    tauto.
  - unfold target_dir_of. rewrite os_path_join_snoc. cbn [app].
    by apply os_path_join_prefix.
Qed.

Lemma X11_under_destination_root_witness :
  (exists r, target_dir_of "dst" unknown_details = "dst" +:+ r)
  /\ (exists r, os_path_join (target_dir_of "dst" unknown_details)
                  ["A1_EN.mp4"] = "dst" +:+ r).
Proof.
  apply (X11_under_destination_root "dst" "A1_EN.mp4" unknown_details
           [LogRecord WARNING
              "Filename structure unexpected: %s, expected 4 parts separated by underscores"
              [ArgStr "A1_EN.mp4"]]); by vm_compute.
Defined.

(** ** The layout, spelled out *)

Lemma append_nil_r (s : string) : s +:+ EmptyString = s.
Proof. induction s as [|a s IH]; [done|]. by rewrite append_cons, IH. Qed.

Lemma append_nonempty (a b : string) :
  b <> EmptyString -> a +:+ b <> EmptyString.
Proof. destruct a; [by rewrite append_nil | by rewrite append_cons]. Qed.

Lemma endswith_app_nonempty x b :
  b <> EmptyString -> Str.endswith "/" (x +:+ b) = Str.endswith "/" b.
Proof.
  intros Hb. induction x as [|a x IH]; [done|].
  rewrite append_cons. cbn [Str.endswith]. rewrite IH.
  pose proof (append_nonempty x b Hb) as Hne.
  destruct (x +:+ b) as [|c t]; [done|].
  cbn [String.eqb]. by destruct (Ascii.eqb "/" a).
Qed.

Lemma startswith_app_nonempty s t :
  s <> EmptyString -> Str.startswith "/" (s +:+ t) = Str.startswith "/" s.
Proof. destruct s as [|a s]; [done|]. by rewrite append_cons. Qed.

Lemma join_step_open path b :
  open_path path -> Str.startswith "/" b = false ->
  join_step path b = path +:+ "/" +:+ b.
Proof.
  intros [Hne Hend] Hb. unfold join_step. rewrite Hb, Hend.
  by apply String.eqb_neq in Hne as ->.
Qed.

Lemma join_step_segment path b :
  open_path path -> segment b ->
  join_step path b = path +:+ "/" +:+ b /\ open_path (path +:+ "/" +:+ b).
Proof.
  intros Hp (Hne & Hstart & Hend). split; [by apply join_step_open|]. split.
  - apply append_nonempty. by rewrite append_cons.
  - rewrite <- append_assoc, endswith_app_nonempty; done.
Qed.

(** The join of the five components, one level each. *)
Lemma target_layout (dst_dir file : string) (d : details)
    (records : list log_record) :
  parse_video_filename file = Return (d, records) ->
  open_path dst_dir ->
  segment (language d) -> segment (emotion d) -> segment (detail d) ->
  Str.startswith "/" file = false ->
  target_dir_of dst_dir d
  = dst_dir +:+ "/" +:+ language d +:+ "/" +:+ gender d +:+ "/" +:+ emotion d
    +:+ "/" +:+ detail d
  /\ os_path_join (target_dir_of dst_dir d) [file]
     = dst_dir +:+ "/" +:+ language d +:+ "/" +:+ gender d +:+ "/"
       +:+ emotion d +:+ "/" +:+ detail d +:+ "/" +:+ file.
Proof.
  intros Hd Hdst Hl He Hdt Hfile.
  assert (Hg : segment (gender d)).
  { by destruct (gender_label _ _ _ Hd) as [->|[->| ->]]. }
  unfold target_dir_of, os_path_join. cbn [foldl].
  destruct (join_step_segment _ _ Hdst Hl) as [-> H1].
  destruct (join_step_segment _ _ H1 Hg) as [-> H2].
  destruct (join_step_segment _ _ H2 He) as [-> H3].
  destruct (join_step_segment _ _ H3 Hdt) as [-> H4].
  rewrite (join_step_open _ _ H4 Hfile). by rewrite !append_assoc.
Qed.


(** X12: with a destination root that is not empty and does not end in a
    slash, and language, emotion and detail codes that are not empty and
    have no slash at either end, the directory made is root/language/gender/
    emotion/detail and the file is copied to that directory under its own
    name. *)
Theorem X12_layout (dst_dir file : string) (d : details)
    (records : list log_record) :
  parse_video_filename file = Return (d, records) ->
  open_path dst_dir ->
  segment (language d) -> segment (emotion d) -> segment (detail d) ->
  Str.startswith "/" file = false ->
  target_dir_of dst_dir d
  = dst_dir +:+ "/" +:+ language d +:+ "/" +:+ gender d +:+ "/" +:+ emotion d
    +:+ "/" +:+ detail d
  /\ os_path_join (target_dir_of dst_dir d) [file]
     = dst_dir +:+ "/" +:+ language d +:+ "/" +:+ gender d +:+ "/"
       +:+ emotion d +:+ "/" +:+ detail d +:+ "/" +:+ file.
Proof.
  intros Hd Hdst Hl He Hdt Hfile.
  assert (Hg : segment (gender d)).
  { by destruct (gender_label _ _ _ Hd) as [->|[->| ->]]. }
  unfold target_dir_of, os_path_join. cbn [foldl].
  destruct (join_step_segment _ _ Hdst Hl) as [-> H1].
  destruct (join_step_segment _ _ H1 Hg) as [-> H2].
  destruct (join_step_segment _ _ H2 He) as [-> H3].
  destruct (join_step_segment _ _ H3 Hdt) as [-> H4].
  rewrite (join_step_open _ _ H4 Hfile). by rewrite !append_assoc.
Qed.

Lemma X12_layout_witness :
  target_dir_of "out" unknown_details = "out/unknown/Unknown/unknown/unknown"
  /\ os_path_join (target_dir_of "out" unknown_details) ["A1_EN.mp4"]
     = "out/unknown/Unknown/unknown/unknown/A1_EN.mp4".
Proof.
  apply (X12_layout "out" "A1_EN.mp4" unknown_details
           [LogRecord WARNING
              "Filename structure unexpected: %s, expected 4 parts separated by underscores"
              [ArgStr "A1_EN.mp4"]]); by vm_compute.
Defined.

(** An empty component is passed over by the next one. *)
Lemma join_step_empty path b :
  join_step (join_step path EmptyString) b = join_step path b.
Proof.
  unfold join_step at 2. cbn [Str.startswith].
  destruct (String.eqb path EmptyString || Str.endswith "/" path) eqn:Hp.
  - by rewrite append_nil_r.
  - apply orb_false_iff in Hp as [Hne Hend]. apply String.eqb_neq in Hne.
    rewrite append_nil_r. unfold join_step.
    destruct (Str.startswith "/" b); [done|].
    apply String.eqb_neq in Hne. rewrite Hne, Hend.
    assert (Hslash : Str.endswith "/" (path +:+ "/") = true).
    { apply endswith_spec. by exists path. }
    rewrite Hslash, orb_true_r. by rewrite append_assoc.
Qed.

Lemma os_path_join_skip_empty a p f :
  os_path_join a (p ++ [f])
  = os_path_join a (filter (fun c => c <> EmptyString) p ++ [f]).
Proof.
  unfold os_path_join. revert a.
  induction p as [|x p IH]; intros a; [done|].
  destruct (decide (x = EmptyString)) as [->|Hx].
  - rewrite filter_cons_False by (by intros ?). rewrite <- IH.
    cbn [app foldl].
    destruct (p ++ [f]) as [|b q] eqn:Hq; [by destruct p|].
    cbn [foldl]. by rewrite join_step_empty.
  - rewrite filter_cons_True by done. cbn [app foldl]. apply IH.
Qed.

(** X13: an empty code takes no directory level: the file is copied where
    it would be copied if the empty ones among the language, emotion and
    detail codes were left out of the join. *)
Theorem X13_empty_code_skipped (dst_dir file : string) (d : details) :
  os_path_join (target_dir_of dst_dir d) [file]
  = os_path_join dst_dir
      (filter (fun c => c <> EmptyString)
         [language d; gender d; emotion d; detail d] ++ [file]).
Proof.
  unfold target_dir_of. rewrite os_path_join_snoc.
  apply os_path_join_skip_empty.
Qed.

Example empty_language_run :
  file_body (H := DemoFS.writable) "dst" "src" (0, 0) "A1__H_S1.mp4"
    DemoFS.start
  = (Return (1, 0),
     {| world :=
          {| DemoFS.dirs := ["dst/M/H/S1"];
             DemoFS.copies := [("src/A1__H_S1.mp4", "dst/M/H/S1/A1__H_S1.mp4")] |};
        logs :=
          [LogRecord INFO "Copied %s to %s"
             [ArgStr "src/A1__H_S1.mp4"; ArgStr "dst/M/H/S1/A1__H_S1.mp4"]] |}).
Proof. vm_compute. reflexivity. Qed.

(** ** Recognized names *)

(** The keys of the language, emotion and sentence tables take a
    directory level each, and no speaker code starts with a slash. *)
Lemma table_segments :
  (forall k v, LANGUAGE_DICT !! k = Some v -> segment k)
  /\ (forall k v, EMOTION_DICT !! k = Some v -> segment k)
  /\ (forall k v, SENTENCE_DICT !! k = Some v -> segment k)
  /\ (forall k v, SPEAKER_NAME_DICT !! k = Some v -> segment k).
Proof. split; [|split; [|split]]; table_keys. Qed.

(** The record of a name made of table keys. *)
Lemma parse_keys (S L E D ext sn lf ef st : string) :
  SPEAKER_NAME_DICT !! S = Some sn ->
  LANGUAGE_DICT !! L = Some lf ->
  EMOTION_DICT !! E = Some ef ->
  SENTENCE_DICT !! D = Some st ->
  Str.contains "." ext = false ->
  parse_video_filename
    (S +:+ "_" +:+ L +:+ "_" +:+ E +:+ "_" +:+ D +:+ "." +:+ ext)
  = Return
      ({| speaker := S; speaker_name := sn;
          gender := gender_loop Gender S "Unknown";
          language := L; language_full := lf;
          emotion := E; emotion_full := ef;
          detail := D; sentence := st |}, []).
Proof.
  intros HS HL HE HD Hext.
  destruct (SPEAKER_NAME_DICT_clean _ _ HS) as (HS1 & _ & HS3).
  destruct (LANGUAGE_DICT_clean _ _ HL) as (HL1 & _ & HL3).
  destruct (EMOTION_DICT_clean _ _ HE) as (HE1 & _ & HE3).
  destruct (SENTENCE_DICT_clean _ _ HD) as (HD1 & _ & HD3).
  set (base := S +:+ "_" +:+ L +:+ "_" +:+ E +:+ "_" +:+ D).
  assert (Hname : S +:+ "_" +:+ L +:+ "_" +:+ E +:+ "_" +:+ D +:+ "." +:+ ext
                  = base +:+ String "." ext).
  { unfold base. by rewrite !append_assoc. }
  assert (Hsplit : Str.split "_" base = [S; L; E; D]).
  { unfold base. rewrite !append_cons, !append_nil.
    rewrite (split_app _ _ _ HS1), (split_app _ _ _ HL1), (split_app _ _ _ HE1).
    by rewrite (split_nosep _ _ HD1). }
  rewrite Hname, (parse_four _ _ _ _ _ _ (base_name_ext _ _ Hext) Hsplit).
  cbv zeta. rewrite HS3, HL3, HE3, HD3. unfold dict_get.
  by rewrite HS, HL, HE, HD.
Qed.

(** X14: a file named S_L_E_D.ext with codes of the four tables and a
    dot-free extension is copied, under a destination root that is not empty
    and does not end in a slash, to root/L/g/E/D/name, where g is "M" or
    "F", the label [get_gender] returns for S: never to the "Unknown"
    directory. *)
Theorem X14_recognized_layout (dst_dir S L E D ext sn lf ef st : string) :
  SPEAKER_NAME_DICT !! S = Some sn ->
  LANGUAGE_DICT !! L = Some lf ->
  EMOTION_DICT !! E = Some ef ->
  SENTENCE_DICT !! D = Some st ->
  Str.contains "." ext = false ->
  open_path dst_dir ->
  let file := S +:+ "_" +:+ L +:+ "_" +:+ E +:+ "_" +:+ D +:+ "." +:+ ext in
  exists d g,
    parse_video_filename file = Return (d, [])
    /\ get_gender S = Return g /\ (g = "M" \/ g = "F")
    /\ os_path_join (target_dir_of dst_dir d) [file]
       = dst_dir +:+ "/" +:+ L +:+ "/" +:+ g +:+ "/" +:+ E +:+ "/" +:+ D
         +:+ "/" +:+ file.
Proof.
  intros HS HL HE HD Hext Hdst file.
  pose proof (parse_keys _ _ _ _ _ _ _ _ _ HS HL HE HD Hext) as Hd.
  fold file in Hd.
  destruct (SPEAKER_NAME_DICT_listed _ _ HS) as (_ & g & Hg).
  destruct table_segments as (HsL & HsE & HsD & HsS).
  eexists _, g. split; [exact Hd|]. split; [done|].
  split; [apply (get_gender_label _ _ Hg)|].
  assert (Hfile : Str.startswith "/" file = false).
  { destruct (HsS _ _ HS) as (Hne & Hst & _).
    unfold file. by rewrite startswith_app_nonempty. }
  destruct (target_layout dst_dir file _ _ Hd Hdst) as [_ ->];
    cbn [language emotion detail gender]; eauto.
  rewrite gender_loop_strict. unfold get_gender in Hg. by rewrite Hg.
Qed.

Lemma X14_recognized_layout_witness :
  exists d g,
    parse_video_filename "A3_HI_S_S2.mov" = Return (d, [])
    /\ get_gender "A3" = Return g /\ (g = "M" \/ g = "F")
    /\ os_path_join (target_dir_of "out" d) ["A3_HI_S_S2.mov"]
       = "out" +:+ "/" +:+ "HI" +:+ "/" +:+ g +:+ "/" +:+ "S" +:+ "/" +:+ "S2"
         +:+ "/" +:+ "A3_HI_S_S2.mov".
Proof.
  apply (X14_recognized_layout "out" "A3" "HI" "S" "S2" "mov" "Speaker Three"
           "Hindi" "Sad" "I tried to resolve this issue from my end.");
    by vm_compute.
Defined.

(** ** The filter and the decoder *)

(** Only a dot matches the dot of an extension. *)
Lemma same_letter_dot c : same_letter c "." = true -> c = "."%char.
Proof. revert c. intros [[] [] [] [] [] [] [] []]; by vm_compute. Qed.

(** A dot matches none of the other characters of the three extensions. *)
Lemma matches_no_dot ext tail :
  ext ∈ ["mp4"; "avi"; "mov"] ->
  matches_nocase ext tail = true -> Str.contains "." tail = false.
Proof.
  intros Hext Hm.
  assert (Hchars : exists e1 e2 e3,
             ext = String e1 (String e2 (String e3 EmptyString))
             /\ same_letter "." e1 = false /\ same_letter "." e2 = false
             /\ same_letter "." e3 = false).
  { repeat (apply elem_of_cons in Hext as [->|Hext]; [by eexists _, _, _|]).
    by apply elem_of_nil in Hext. }
  destruct Hchars as (e1 & e2 & e3 & -> & N1 & N2 & N3).
  destruct tail as [|c1 [|c2 [|c3 [|c4 t]]]]; cbn [matches_nocase] in Hm;
    rewrite ?andb_false_r in Hm; try done.
  apply andb_true_iff in Hm as [H1 Hm]. apply andb_true_iff in Hm as [H2 Hm].
  apply andb_true_iff in Hm as [H3 _]. cbn [Str.contains].
  destruct (Ascii.eqb_spec c1 ".") as [->|_]; [congruence|].
  destruct (Ascii.eqb_spec c2 ".") as [->|_]; [congruence|].
  by destruct (Ascii.eqb_spec c3 ".") as [->|_]; [congruence|].
Qed.

(** X15: for every file the reorganizer processes, what the decoder splits
    into fields is the name without its media extension: the name is a stem
    followed by ".mp4", ".avi" or ".mov" in some case of the letters, and
    the base the decoder takes is that stem. *)
Theorem X15_base_of_video (file : string) :
  is_video file = true ->
  exists stem ext tail,
    ext ∈ ["mp4"; "avi"; "mov"]
    /\ file = stem +:+ "." +:+ tail
    /\ matches_nocase ext tail = true
    /\ base_name file = Return stem.
Proof.
  intros (ext & Hext & stem & tail & -> & Hm)%is_video_qualifies.
  assert (Hdot : exists ext', ext = String "." ext' /\ ext' ∈ ["mp4"; "avi"; "mov"]).
  { repeat (apply elem_of_cons in Hext as [->|Hext];
            [eexists; split; [reflexivity|]; rewrite !elem_of_cons; by eauto|]).
    by apply elem_of_nil in Hext. }
  destruct Hdot as (ext' & -> & Hext').
  destruct tail as [|c tail]; [done|]. cbn [matches_nocase] in Hm.
  apply andb_true_iff in Hm as [->%same_letter_dot Hm].
  exists stem, ext', tail. split; [done|]. split; [done|]. split; [done|].
  apply base_name_ext. by apply (matches_no_dot ext').
Qed.

Lemma X15_base_of_video_witness :
  exists stem ext tail,
    ext ∈ ["mp4"; "avi"; "mov"]
    /\ "A3_HI_S_S2.MoV" = stem +:+ "." +:+ tail
    /\ matches_nocase ext tail = true
    /\ base_name "A3_HI_S_S2.MoV" = Return stem.
Proof. apply (X15_base_of_video "A3_HI_S_S2.MoV"). by vm_compute. Defined.
